(** * A shallow embedding of the MNIST neural-network framework

    The development follows the two Python sources that carry the
    framework's logic:

    - [layers/dropout.py]: the [Dropout] layer ([__init__], [compile],
      [forward], [backward]);
    - [model.py]: the [Model] class ([__init__], [predict], [fit]).

    Python objects are records, methods are computations in a state and
    exception monad over the receiver ([self]), NumPy arrays are a shape
    together with the row-major list of their elements, and the random
    generators are streams that the computation consumes. *)

From Stdlib Require Import ZArith PrimFloat.
From stdpp Require Import base list strings pretty.

Local Open Scope Z_scope.

(** ** Exceptions and the method monad *)

(** The exception classes that the sources raise, or that the interpreter
    and NumPy raise on their behalf. *)
Inductive exn : Type :=
  | TypeError
  | ValueError
  | AttributeError
  | IndexError
  | ZeroDivisionError.

Definition result (A : Type) : Type := exn + A.

(** A method body: it runs on the receiver's state, returns a value or
    raises, and leaves a state behind in both cases (an exception does not
    roll back the assignments made before it). *)
Definition M (S A : Type) : Type := S -> result A * S.

Definition ret {S A} (a : A) : M S A := fun s => (inr a, s).

Definition raise {S A} (e : exn) : M S A := fun s => (inl e, s).

Definition bind {S A B} (c : M S A) (k : A -> M S B) : M S B :=
  fun s =>
    match c s with
    | (inr a, s') => k a s'
    | (inl e, s') => (inl e, s')
    end.

Definition get {S} : M S S := fun s => (inr s, s).

Definition modify {S} (f : S -> S) : M S unit := fun s => (inr tt, f s).

(** A pure computation that may raise, run inside a method. *)
Definition lift {S A} (r : result A) : M S A := fun s => (r, s).

Declare Scope py_scope.
Delimit Scope py_scope with py.
Notation "'let*' x ':=' c 'in' k" := (bind c (fun x => k))
  (at level 10, x name, c at level 100, k at level 200) : py_scope.
Local Open Scope py_scope.

(** [for x in xs: body x] *)
Fixpoint for_each {S A} (xs : list A) (body : A -> M S unit) : M S unit :=
  match xs with
  | [] => ret tt
  | x :: rest => let* _ := body x in for_each rest body
  end.

(** A [for] loop that rebinds one local variable on every iteration. *)
Fixpoint for_fold {S A B} (xs : list A) (acc : B) (body : A -> B -> M S B)
  : M S B :=
  match xs with
  | [] => ret acc
  | x :: rest => let* acc' := body x acc in for_fold rest acc' body
  end.

(** [range(n)] for a Python integer [n]. *)
Definition range (n : Z) : list nat := seq 0 (Z.to_nat n).

(** ** Array elements

    The arithmetic the sources perform on array elements: the literals
    [0] and [1], subtraction, true division and the strict order.  The
    theorems hold for every interpretation; [float_scalar] below is
    NumPy's default [float64]. *)
Class Scalar (F : Type) : Type := {
  f_zero : F;
  f_one : F;
  f_sub : F -> F -> F;
  f_div : F -> F -> F;
  f_ltb : F -> F -> bool;
}.

#[export] Instance float_scalar : Scalar float := {|
  f_zero := 0%float;
  f_one := 1%float;
  f_sub := PrimFloat.sub;
  f_div := PrimFloat.div;
  f_ltb := PrimFloat.ltb;
|}.

(** ** NumPy arrays *)

Record ndarray (A : Type) : Type := NDArray {
  shape : list nat;
  data : list A;
}.
Arguments NDArray {A} _ _.
Arguments shape {A} _.
Arguments data {A} _.

(** The number of elements of an array of the given shape. *)
Definition size_of (sh : list nat) : nat := foldr Nat.mul 1%nat sh.

(** The invariant of every array NumPy builds. *)
Definition well_formed {A} (a : ndarray A) : Prop :=
  length (data a) = size_of (shape a).

(** [sh[i]] on the shape tuple, with Python's negative indices. *)
Definition shape_index (sh : list nat) (i : Z) : result nat :=
  let len := Z.of_nat (length sh) in
  let j := if i <? 0 then len + i else i in
  if (j <? 0) || (len <=? j) then inl IndexError
  else match sh !! Z.to_nat j with
       | Some d => inr d
       | None => inl IndexError
       end.

(** Element-wise operations with a scalar operand. *)
Definition np_map {A B} (f : A -> B) (a : ndarray A) : ndarray B :=
  NDArray (shape a) (map f (data a)).

(** Broadcasting of two shapes, aligned on their trailing dimensions.
    [broadcast_rev] works on the reversed shapes. *)
Fixpoint broadcast_rev (s1 s2 : list nat) : option (list nat) :=
  match s1, s2 with
  | [], s => Some s
  | s, [] => Some s
  | d1 :: r1, d2 :: r2 =>
      match broadcast_rev r1 r2 with
      | None => None
      | Some r =>
          if (d1 =? d2)%nat then Some (d1 :: r)
          else if (d1 =? 1)%nat then Some (d2 :: r)
          else if (d2 =? 1)%nat then Some (d1 :: r)
          else None
      end
  end.

Definition broadcast_shapes (s1 s2 : list nat) : option (list nat) :=
  reverse <$> broadcast_rev (reverse s1) (reverse s2).

(** Row-major multi-index of a flat position, and back. *)
Fixpoint unravel (sh : list nat) (k : nat) : list nat :=
  match sh with
  | [] => []
  | _ :: rest =>
      (k / size_of rest)%nat :: unravel rest (k mod size_of rest)%nat
  end.

Fixpoint ravel (sh idx : list nat) : nat :=
  match sh, idx with
  | _ :: sh', i :: idx' => (i * size_of sh' + ravel sh' idx')%nat
  | _, _ => 0%nat
  end.

(** The flat position in an array of shape [s] that position [k] of the
    broadcast shape [rs] reads: leading dimensions of [rs] that [s] lacks
    are ignored and a dimension of extent 1 is repeated. *)
Definition broadcast_index (s rs : list nat) (k : nat) : nat :=
  ravel s
    (zip_with (fun d i => if (d =? 1)%nat then 0%nat else i) s
       (drop (length rs - length s) (unravel rs k))).

Definition broadcast_to {A} (dflt : A) (a : ndarray A) (rs : list nat)
  : list A :=
  map (fun k => default dflt (data a !! broadcast_index (shape a) rs k))
    (seq 0 (size_of rs)).

(** [np.where(condition, x, y)] for a scalar [y]: the result has the
    broadcast shape of [condition] and [x]; shapes that do not broadcast
    raise [ValueError]. *)
Definition np_where {A} (condition : ndarray bool) (x : ndarray A) (y : A)
  : result (ndarray A) :=
  match broadcast_shapes (shape condition) (shape x) with
  | None => inl ValueError
  | Some rs =>
      inr (NDArray rs
             (zip_with (fun (c : bool) v => if c then v else y)
                (broadcast_to false condition rs) (broadcast_to y x rs)))
  end.

(** The condition NumPy makes of [self._dropout_filter]: the cached
    array, or, for [None], a zero-dimensional array that casts to
    [False]. *)
Definition as_condition (o : option (ndarray bool)) : ndarray bool :=
  default (NDArray [] [false]) o.

(** [a[indices]] for an array of row numbers: the rows of [a] (its
    sub-arrays along the first axis) in the order of [indices]. *)
Definition row {A} (a : ndarray A) (i : nat) : list A :=
  let w := size_of (tail (shape a)) in
  take w (drop (i * w) (data a)).

Definition take_rows {A} (a : ndarray A) (indices : list nat)
  : result (ndarray A) :=
  match shape a with
  | [] => inl IndexError
  | n :: rest =>
      if forallb (fun i => (i <? n)%nat) indices
      then inr (NDArray (length indices :: rest)
                  (concat (map (row a) indices)))
      else inl IndexError
  end.

(** [a[lower:upper]] for non-negative bounds, which the slice clamps to
    the number of rows. *)
Definition slice_rows {A} (a : ndarray A) (lower upper : nat)
  : result (ndarray A) :=
  match shape a with
  | [] => inl IndexError
  | n :: rest =>
      let lo := Nat.min lower n in
      let hi := Nat.max lo (Nat.min upper n) in
      inr (NDArray ((hi - lo)%nat :: rest)
             (concat (map (row a) (seq lo (hi - lo)))))
  end.

(** ** [layers/dropout.py] *)

Module Dropout.
Section Dropout.
Context {F : Type} `{Scalar F}.

(** [np.random.default_rng()]: the stream of uniform draws the
    generator will produce, and how many it has produced so far. *)
Record Generator : Type := {
  stream : nat -> F;
  position : nat;
}.

(** [generator.random(size=size)]: one draw per element. *)
Definition random (size : list nat) (g : Generator)
  : ndarray F * Generator :=
  (NDArray size
     (map (fun k => stream g (position g + k)%nat) (seq 0 (size_of size))),
   {| stream := stream g; position := (position g + size_of size)%nat |}).

(** The attributes of a [Dropout] instance.  [IS_TRAINABLE],
    [_network_id] and [_is_compiled] belong to the base class [Layer];
    the other four are assigned in [Dropout.__init__]. *)
Record t : Type := {
  IS_TRAINABLE : bool;
  _network_id : option string;
  _is_compiled : bool;
  _RATE : F;
  units : option Z;
  _generator : Generator;
  _dropout_filter : option (ndarray bool);
}.

Definition set_units (v : option Z) (self : t) : t :=
  {| IS_TRAINABLE := IS_TRAINABLE self; _network_id := _network_id self;
     _is_compiled := _is_compiled self; _RATE := _RATE self;
     units := v; _generator := _generator self;
     _dropout_filter := _dropout_filter self |}.

Definition set_network_id (v : option string) (self : t) : t :=
  {| IS_TRAINABLE := IS_TRAINABLE self; _network_id := v;
     _is_compiled := _is_compiled self; _RATE := _RATE self;
     units := units self; _generator := _generator self;
     _dropout_filter := _dropout_filter self |}.

Definition set_is_compiled (v : bool) (self : t) : t :=
  {| IS_TRAINABLE := IS_TRAINABLE self; _network_id := _network_id self;
     _is_compiled := v; _RATE := _RATE self;
     units := units self; _generator := _generator self;
     _dropout_filter := _dropout_filter self |}.

Definition set_generator (v : Generator) (self : t) : t :=
  {| IS_TRAINABLE := IS_TRAINABLE self; _network_id := _network_id self;
     _is_compiled := _is_compiled self; _RATE := _RATE self;
     units := units self; _generator := v;
     _dropout_filter := _dropout_filter self |}.

Definition set_dropout_filter (v : option (ndarray bool)) (self : t) : t :=
  {| IS_TRAINABLE := IS_TRAINABLE self; _network_id := _network_id self;
     _is_compiled := _is_compiled self; _RATE := _RATE self;
     units := units self; _generator := _generator self;
     _dropout_filter := v |}.

(** Modelled from the spec: [Layer.__init__] of [layers/layer.py], which
    is not among the sources.  The spec gives a layer the attributes
    [is_trainable] (fixed at construction), [network_id] (assigned at
    compile time) and [is_compiled]; a layer that was never compiled is
    not ready. *)
Definition Layer_init (is_trainable : bool) : bool * option string * bool :=
  (is_trainable, None, false).

(** [Dropout.__init__(self, rate)]; [entropy] is the stream of the
    fresh generator. *)
Definition init (rate : F) (entropy : nat -> F) : result t :=
  let '(is_trainable, network_id, is_compiled) := Layer_init false in
  if negb (f_ltb f_zero rate && f_ltb rate f_one) then inl ValueError
  else inr {| IS_TRAINABLE := is_trainable; _network_id := network_id;
              _is_compiled := is_compiled; _RATE := rate;
              units := None;
              _generator := {| stream := entropy; position := 0 |};
              _dropout_filter := None |}.

(** [Dropout.compile(self, layer_idx, input_units)] *)
Definition compile (layer_idx input_units : Z) : M t unit :=
  if layer_idx <? 1 then raise ValueError
  else if input_units <? 1 then raise ValueError
  else
    let* _ := modify (set_units (Some input_units)) in
    let* _ := modify
                (set_network_id (Some ("Dropout" +:+ pretty layer_idx))) in
    modify (set_is_compiled true).

(** [dim != self.units] for a dimension of a shape. *)
Definition differs (dim : nat) (u : option Z) : bool :=
  match u with
  | Some z => negb (Z.of_nat dim =? z)
  | None => true
  end.

(** [Dropout.forward(self, layer_inputs, in_training)] *)
Definition forward (layer_inputs : ndarray F) (in_training : bool)
  : M t (ndarray F) :=
  let* self := get in
  if negb (_is_compiled self) then raise AttributeError
  else
    let* last_dim := lift (shape_index (shape layer_inputs) (-1)) in
    if differs last_dim (units self) then raise ValueError
    else if in_training then
      let '(filter_values, g) :=
        random (shape layer_inputs) (_generator self) in
      let* _ := modify (set_generator g) in
      let dropout_filter := np_map (f_ltb (_RATE self)) filter_values in
      let* filtered_inputs :=
        lift (np_where dropout_filter layer_inputs f_zero) in
      let layer_outputs :=
        np_map (fun v => f_div v (f_sub f_one (_RATE self)))
          filtered_inputs in
      let* _ := modify (set_dropout_filter (Some dropout_filter)) in
      ret layer_outputs
    else ret layer_inputs.

(** [Dropout.backward(self, output_grads)] *)
Definition backward (output_grads : ndarray F) : M t (ndarray F) :=
  let* self := get in
  if negb (_is_compiled self) then raise AttributeError
  else
    let* dim := lift (shape_index (shape output_grads) 1) in
    if differs dim (units self) then raise ValueError
    else
      let rescaled_grads :=
        np_map (fun v => f_div v (f_sub f_one (_RATE self)))
          output_grads in
      let* input_grads :=
        lift (np_where (as_condition (_dropout_filter self))
                rescaled_grads f_zero) in
      ret input_grads.

End Dropout.
Arguments t F : clear implicits.
Arguments Generator F : clear implicits.
End Dropout.

(** ** [model.py] *)

Module Model.
Section Model.
Context {F : Type} `{Scalar F}.

(** What [Model] uses of a layer object: two attributes, four methods
    and the test [isinstance(layer, InputLayer)].  A method receives the
    positional arguments of the call and binds them to its own
    signature, so a call with the wrong number of arguments raises
    [TypeError] in the layer.  For [forward], the second component is
    the [in_training] argument, [None] when the caller passes none. *)
Record LayerClass : Type := {
  state : Type;
  isinstance_InputLayer : bool;
  get_UNITS : state -> result Z;
  get_IS_TRAINABLE : state -> result bool;
  call_compile : list Z -> M state unit;
  call_forward : ndarray F -> option bool -> M state (ndarray F);
  call_backward : ndarray F -> M state (ndarray F);
  call_update : F -> M state unit;
}.

(** A layer object: its class and the current values of its
    attributes. *)
Record Layer : Type := {
  class : LayerClass;
  attrs : state class;
}.

(** The members a [Dropout] instance inherits from [Layer], whose
    source is missing: the attribute [UNITS] (dropout.py assigns only
    the lower-case [units]) and the method [update]. *)
Record Inherited : Type := {
  Layer_UNITS : Dropout.t F -> result Z;
  Layer_update : F -> M (Dropout.t F) unit;
}.

(** [Dropout] as a layer class: each call binds its arguments to the
    signatures of dropout.py, [compile(self, layer_idx, input_units)]
    and [forward(self, layer_inputs, in_training)], neither of which
    has a default value. *)
Definition Dropout_class (base : Inherited) : LayerClass := {|
  state := Dropout.t F;
  isinstance_InputLayer := false;
  get_UNITS := Layer_UNITS base;
  get_IS_TRAINABLE := fun self => inr (Dropout.IS_TRAINABLE self);
  call_compile := fun args =>
    match args with
    | [layer_idx; input_units] => Dropout.compile layer_idx input_units
    | _ => raise TypeError
    end;
  call_forward := fun layer_inputs in_training =>
    match in_training with
    | Some b => Dropout.forward layer_inputs b
    | None => raise TypeError
    end;
  call_backward := Dropout.backward;
  call_update := Layer_update base;
|}.

Definition Dropout_layer (base : Inherited) (d : Dropout.t F) : Layer :=
  {| class := Dropout_class base; attrs := d |}.

(** The loss object: [calculate] and [gradate] are functions of their
    two arguments. *)
Record Loss : Type := {
  calculate : ndarray F -> ndarray F -> result F;
  gradate : ndarray F -> ndarray F -> result (ndarray F);
}.

(** The calls a model makes on its layers and on its loss, with their
    arguments. *)
Inductive event : Type :=
  | CallCompile (layer_idx : nat) (args : list Z)
  | CallForward (layer_idx : nat) (inputs : ndarray F)
      (in_training : option bool)
  | CallBackward (layer_idx : nat) (grads : ndarray F)
  | CallUpdate (layer_idx : nat) (learning_rate : F)
  | CallGradate (outputs labels : ndarray F)
  | CallCalculate (outputs labels : ndarray F).

(** A [Model] instance.  The layer objects are assumed distinct; their
    attributes change as the model calls them.  [calls] is the history
    of the calls made so far, kept for the statements about call
    order. *)
Record t : Type := {
  _LOSS : Loss;
  _LAYERS : list Layer;
  calls : list event;
}.

Definition set_LAYERS (v : list Layer) (self : t) : t :=
  {| _LOSS := _LOSS self; _LAYERS := v; calls := calls self |}.

Definition log (e : event) : M t unit :=
  modify (fun self =>
    {| _LOSS := _LOSS self; _LAYERS := _LAYERS self;
       calls := calls self ++ [e] |}).

(** Run a method of the layer at position [i] on that layer's
    attributes. *)
Definition on_layer {A} (i : nat)
    (method : forall c : LayerClass, M (state c) A) : M t A :=
  fun self =>
    match _LAYERS self !! i with
    | None => (inl IndexError, self)
    | Some l =>
        let '(r, s) := method (class l) (attrs l) in
        (r, set_LAYERS (<[i := {| class := class l; attrs := s |}]>
                          (_LAYERS self)) self)
    end.

(** [self._LAYERS[i].UNITS] and [self._LAYERS[i].IS_TRAINABLE] *)
Definition layer_UNITS (i : nat) : M t Z :=
  on_layer i (fun c s => (get_UNITS c s, s)).

Definition layer_IS_TRAINABLE (i : nat) : M t bool :=
  on_layer i (fun c s => (get_IS_TRAINABLE c s, s)).

(** [layer.compile(width)]: one positional argument. *)
Definition layer_compile (i : nat) (width : Z) : M t unit :=
  let* _ := log (CallCompile i [width]) in
  on_layer i (fun c => call_compile c [width]).

(** [layer.forward(inputs)]: one positional argument, no
    [in_training]. *)
Definition layer_forward (i : nat) (inputs : ndarray F)
  : M t (ndarray F) :=
  let* _ := log (CallForward i inputs None) in
  on_layer i (fun c => call_forward c inputs None).

(** [layer.backward(grads)] *)
Definition layer_backward (i : nat) (grads : ndarray F)
  : M t (ndarray F) :=
  let* _ := log (CallBackward i grads) in
  on_layer i (fun c => call_backward c grads).

(** [layer.update(learning_rate)] *)
Definition layer_update (i : nat) (learning_rate : F) : M t unit :=
  let* _ := log (CallUpdate i learning_rate) in
  on_layer i (fun c => call_update c learning_rate).

(** [self._LOSS.gradate(outputs, labels)] and
    [self._LOSS.calculate(outputs, labels)] *)
Definition loss_gradate (outputs labels : ndarray F)
  : M t (ndarray F) :=
  let* _ := log (CallGradate outputs labels) in
  let* self := get in
  lift (gradate (_LOSS self) outputs labels).

Definition loss_calculate (outputs labels : ndarray F) : M t F :=
  let* _ := log (CallCalculate outputs labels) in
  let* self := get in
  lift (calculate (_LOSS self) outputs labels).

(** [layers.verify_layer], whose source is missing. *)
Variable verify_layer : Layer -> bool.

(** The first loop of [Model.__init__]: the layer types. *)
Fixpoint check_layers (layer_idx : nat) (model_layers : list Layer)
  : result unit :=
  match model_layers with
  | [] => inr tt
  | layer :: rest =>
      if negb (verify_layer layer) then inl TypeError
      else if negb (layer_idx =? 0)%nat
              && isinstance_InputLayer (class layer)
      then inl ValueError
      else if (layer_idx =? 0)%nat
              && negb (isinstance_InputLayer (class layer))
      then inl ValueError
      else check_layers (S layer_idx) rest
  end.

(** The second loop of [Model.__init__]: connect the layers. *)
Definition connect_layers (n_layers : nat) : M t unit :=
  for_each (seq 0 n_layers) (fun layer_idx =>
    if (layer_idx =? 0)%nat then ret tt
    else
      let* width := layer_UNITS (layer_idx - 1) in
      layer_compile layer_idx width).

(** [Model.__init__(self, loss, *model_layers)].  The result is the
    outcome of the constructor and the model with the layer objects as
    the constructor left them. *)
Definition init (loss : Loss) (model_layers : list Layer)
  : result unit * t :=
  (let* _ := lift (check_layers 0 model_layers) in
   connect_layers (length model_layers))
    {| _LOSS := loss; _LAYERS := model_layers; calls := [] |}.

(** [Model.predict(self, examples)] *)
Definition predict (examples : ndarray F) : M t (ndarray F) :=
  let* self := get in
  for_fold (seq 0 (length (_LAYERS self))) examples
    (fun layer inputs_propagated => layer_forward layer inputs_propagated).

(** The body of the batch loop of [Model.fit]. *)
Definition fit_batch (permuted_examples permuted_labels : ndarray F)
    (batch_size : Z) (learning_rate : F) (batch : nat) : M t unit :=
  let lower_idx := batch_size * Z.of_nat batch in
  let upper_idx := batch_size * (Z.of_nat batch + 1) in
  let* batch_examples :=
    lift (slice_rows permuted_examples
            (Z.to_nat lower_idx) (Z.to_nat upper_idx)) in
  let* batch_labels :=
    lift (slice_rows permuted_labels
            (Z.to_nat lower_idx) (Z.to_nat upper_idx)) in
  let* batch_outputs := predict batch_examples in
  let* output_gradients := loss_gradate batch_outputs batch_labels in
  let* self := get in
  let* _ :=
    for_fold (reverse (seq 0 (length (_LAYERS self)))) output_gradients
      (fun layer propagated_gradients =>
         layer_backward layer propagated_gradients) in
  for_each (seq 0 (length (_LAYERS self))) (fun layer =>
    let* is_trainable := layer_IS_TRAINABLE layer in
    if is_trainable then layer_update layer learning_rate else ret tt).

(** [n_examples // batch_size] *)
Definition floordiv (a b : Z) : result Z :=
  if b =? 0 then inl ZeroDivisionError else inr (a / b).

(** The batch size [Model.fit] trains with.  The source compares the
    float [n_examples / 2] with [batch_size]; halving is exact, so the
    comparison is the one of the integers [n_examples] and
    [2 * batch_size]. *)
Definition effective_batch_size (n_examples : nat) (batch_size : Z) : Z :=
  if Z.of_nat n_examples <? 2 * batch_size then Z.of_nat n_examples
  else batch_size.

(** The batches of one epoch: shuffle, then step through the batches. *)
Definition fit_batches (examples labels : ndarray F) (n_examples : nat)
    (batch_size : Z) (learning_rate : F) (shuffling_indices : list nat)
  : M t unit :=
  let* permuted_examples := lift (take_rows examples shuffling_indices) in
  let* permuted_labels := lift (take_rows labels shuffling_indices) in
  let* n_batches := lift (floordiv (Z.of_nat n_examples) batch_size) in
  for_each (range n_batches)
    (fit_batch permuted_examples permuted_labels batch_size
       learning_rate).

(** The body of the epoch loop of [Model.fit]. *)
Definition fit_epoch (examples labels : ndarray F) (n_examples : nat)
    (batch_size : Z) (learning_rate : F) (permutation : nat -> list nat)
    (epoch : nat) (training_history : list F) : M t (list F) :=
  let* _ := fit_batches examples labels n_examples batch_size
              learning_rate (permutation epoch) in
  let* current_outputs := predict examples in
  let* current_loss := loss_calculate current_outputs labels in
  ret (<[epoch := current_loss]> training_history).

(** What [np.empty] happens to hold before it is written. *)
Variable uninitialised : nat -> F.

Definition np_empty (n : Z) : list F := map uninitialised (range n).

(** [Model.fit(self, examples, labels, batch_size, epochs,
    learning_rate)].  [permutation k] is what the [k]-th call of
    [generator.permutation(n_examples)] returns, a permutation of
    [0 .. n_examples - 1]. *)
Definition fit (examples labels : ndarray F) (batch_size epochs : Z)
    (learning_rate : F) (permutation : nat -> list nat) : M t (list F) :=
  if batch_size <? 1 then raise ValueError
  else if epochs <? 1 then raise ValueError
  else
    let training_history := np_empty epochs in
    let* n_examples := lift (shape_index (shape examples) 0) in
    let batch_size := effective_batch_size n_examples batch_size in
    for_fold (range epochs) training_history
      (fit_epoch examples labels n_examples batch_size learning_rate
         permutation).

End Model.
Arguments LayerClass F : clear implicits.
Arguments Layer F : clear implicits.
Arguments Inherited F : clear implicits.
Arguments Loss F : clear implicits.
Arguments event F : clear implicits.
Arguments t F : clear implicits.
End Model.

(** ** Concrete objects

    [float64] instances on which the definitions are run.  The
    repository's [InputLayer], its arithmetic layers and its losses are
    not among the sources; the two layer classes and the loss below stand
    in for them. *)

Module Fixtures.

Definition Dropout_base : Model.Inherited float := {|
  Model.Layer_UNITS := fun _ => inl AttributeError;
  Model.Layer_update := fun _ => raise AttributeError;
|}.

(** Modelled from the spec: [InputLayer], a sentinel layer occupying
    position 0 only and carrying the declared input width.  It passes
    arrays through unchanged whatever the arguments of the call. *)
Definition Input_class : Model.LayerClass float := {|
  Model.state := Z;
  Model.isinstance_InputLayer := true;
  Model.get_UNITS := fun width => inr width;
  Model.get_IS_TRAINABLE := fun _ => inr false;
  Model.call_compile := fun _ => raise TypeError;
  Model.call_forward := fun inputs _ => ret inputs;
  Model.call_backward := fun grads => ret grads;
  Model.call_update := fun _ => ret tt;
|}.

Definition Input_layer (width : Z) : Model.Layer float :=
  {| Model.class := Input_class; Model.attrs := width |}.

(** A trainable layer with one weight: it scales its inputs, keeps the
    first gradient it is handed, and steps the weight against it. *)
Record scale : Type := {
  weight : float;
  gradient : float;
  width : option Z;
}.

Definition Scale_class : Model.LayerClass float := {|
  Model.state := scale;
  Model.isinstance_InputLayer := false;
  Model.get_UNITS := fun self =>
    match width self with
    | Some u => inr u
    | None => inl AttributeError
    end;
  Model.get_IS_TRAINABLE := fun _ => inr true;
  Model.call_compile := fun args =>
    match args with
    | [input_units] =>
        modify (fun self =>
          {| weight := weight self; gradient := gradient self;
             width := Some input_units |})
    | _ => raise TypeError
    end;
  Model.call_forward := fun inputs _ =>
    let* self := get in
    ret (np_map (PrimFloat.mul (weight self)) inputs);
  Model.call_backward := fun grads =>
    let* self := get in
    let* _ := modify (fun self =>
      {| weight := weight self;
         gradient := default 0%float (head (data grads));
         width := width self |}) in
    ret (np_map (PrimFloat.mul (weight self)) grads);
  Model.call_update := fun learning_rate =>
    modify (fun self =>
      {| weight := (weight self - learning_rate * gradient self)%float;
         gradient := gradient self; width := width self |});
|}.

Definition Scale_layer (w : float) : Model.Layer float :=
  {| Model.class := Scale_class;
     Model.attrs := {| weight := w; gradient := 0; width := None |} |}.

(** A loss: the sum of the differences, and the differences. *)
Definition difference_loss : Model.Loss float := {|
  Model.calculate := fun outputs labels =>
    inr (foldr PrimFloat.add 0%float
           (zip_with PrimFloat.sub (data outputs) (data labels)));
  Model.gradate := fun outputs labels =>
    inr (NDArray (shape outputs)
           (zip_with PrimFloat.sub (data outputs) (data labels)));
|}.

(** A dropout layer of rate 1/2 whose generator alternates between the
    draws 3/4 and 1/4, compiled at position 1 for three units. *)
Definition alternating (k : nat) : float :=
  if Nat.even k then 0.75%float else 0.25%float.

Definition fresh_dropout : Dropout.t float :=
  {| Dropout.IS_TRAINABLE := false; Dropout._network_id := None;
     Dropout._is_compiled := false; Dropout._RATE := 0.5%float;
     Dropout.units := None;
     Dropout._generator :=
       {| Dropout.stream := alternating; Dropout.position := 0 |};
     Dropout._dropout_filter := None |}.

Definition compiled_dropout : Dropout.t float :=
  snd (Dropout.compile 1 3 fresh_dropout).

(** Arrays of one, two and twice two rows of three units. *)
Definition ones_1x3 : ndarray float := NDArray [1; 3]%nat [1; 1; 1]%float.

Definition ones_2x3 : ndarray float :=
  NDArray [2; 3]%nat [1; 1; 1; 1; 1; 1]%float.

Definition zeros_2x3 : ndarray float :=
  NDArray [2; 3]%nat [0; 0; 0; 0; 0; 0]%float.

Definition ones_2x2x3 : ndarray float :=
  NDArray [2; 2; 3]%nat (replicate 12 1%float).

(** A one-dimensional array of three units. *)
Definition ones_3 : ndarray float := NDArray [3]%nat [1; 1; 1]%float.

(** A data set of four examples of three units, with its labels. *)
Definition four_examples : ndarray float :=
  NDArray [4; 3]%nat [1; 2; 3; 4; 5; 6; 7; 8; 9; 10; 11; 12]%float.

Definition four_labels : ndarray float :=
  NDArray [4; 3]%nat [1; 0; 0; 0; 1; 0; 0; 0; 1; 1; 0; 0]%float.

(** An empty data set of three units. *)
Definition no_examples : ndarray float := NDArray [0; 3]%nat [].

(** The network of main.py in small: an input layer of three units and
    a dropout layer, wired as [Model.__init__] is meant to wire them. *)
Definition dropout_model : Model.t float :=
  {| Model._LOSS := difference_loss;
     Model._LAYERS :=
       [Input_layer 3; Model.Dropout_layer Dropout_base compiled_dropout];
     Model.calls := [] |}.

(** A model that the constructor does build: an input layer of three
    units and a scaling layer. *)
Definition scale_model : Model.t float :=
  snd (Model.init (fun _ => true) difference_loss
         [Input_layer 3; Scale_layer 2]).

(** The shuffle of the [k]-th epoch: the rotation by [k]. *)
Definition rotation (n k : nat) : list nat :=
  map (fun i => ((i + k) mod n)%nat) (seq 0 n).

End Fixtures.

(** ** Vocabulary of the statements about the dropout layer *)

Section DropoutVocabulary.
Context {F : Type} `{Scalar F}.
Implicit Types (d : Dropout.t F).

(** The scaling both passes apply. *)
Definition rescale d (v : F) : F := f_div v (f_sub f_one (Dropout._RATE d)).

(** The draws a training-mode pass takes for an input of [n] elements,
    and the filter it makes of them. *)
Definition draws d (n : nat) : list F :=
  map (fun k =>
         Dropout.stream (Dropout._generator d)
           (Dropout.position (Dropout._generator d) + k)%nat)
    (seq 0 n).

Definition kept d (n : nat) : list bool :=
  map (f_ltb (Dropout._RATE d)) (draws d n).

(** The layer after a training-mode pass over [n] elements of shape
    [sh]: the generator has moved on by [n] draws and the filter is
    cached. *)
Definition after_training d (sh : list nat) (n : nat) : Dropout.t F :=
  Dropout.set_dropout_filter (Some (NDArray sh (kept d n)))
    (Dropout.set_generator
       {| Dropout.stream := Dropout.stream (Dropout._generator d);
          Dropout.position :=
            (Dropout.position (Dropout._generator d) + n)%nat |} d).

End DropoutVocabulary.

(** ** Vocabulary of the statements about the model *)

Section ModelVocabulary.
Context {F : Type} `{Scalar F}.

(** A computation adds calls to the history, all of them satisfying
    [P], whether it returns or raises. *)
Definition emits {A} (P : Model.event F -> Prop) (c : M (Model.t F) A)
  : Prop :=
  forall s, exists evs,
    Model.calls (snd (c s)) = Model.calls s ++ evs /\ Forall P evs.

(** The call is not a [forward] that was told to run in training or in
    inference mode: a [forward], if it is one, got no [in_training]
    argument. *)
Definition no_training_flag (e : Model.event F) : Prop :=
  match e with
  | Model.CallForward _ _ in_training => in_training = None
  | _ => True
  end.

(** The call is not a [compile] with a position: a [compile], if it is
    one, got a single argument. *)
Definition single_argument_compile (e : Model.event F) : Prop :=
  match e with
  | Model.CallCompile _ args => length args = 1%nat
  | _ => True
  end.

(** The [labels] argument of a call of [gradate]. *)
Definition gradate_labels_of (e : Model.event F) : option (ndarray F) :=
  match e with
  | Model.CallGradate _ labels => Some labels
  | _ => None
  end.

Definition gradate_labels (evs : list (Model.event F)) : list (ndarray F) :=
  omap gradate_labels_of evs.

(** The labels of batch [batch] of an epoch shuffled by [indices]:
    [labels[indices][batch_size * batch : batch_size * (batch + 1)]]. *)
Definition batch_of (labels : ndarray F) (indices : list nat)
    (batch_size : Z) (batch : nat) : result (ndarray F) :=
  match take_rows labels indices with
  | inl e => inl e
  | inr permuted_labels =>
      slice_rows permuted_labels
        (Z.to_nat (batch_size * Z.of_nat batch))
        (Z.to_nat (batch_size * (Z.of_nat batch + 1)))
  end.

(** The classes of the layers of a model, in order. *)
Definition classes (self : Model.t F) : list (Model.LayerClass F) :=
  map Model.class (Model._LAYERS self).


(** What a call is, without its array arguments. *)
Inductive call_tag : Type :=
  | TagCompile (layer_idx : nat)
  | TagForward (layer_idx : nat)
  | TagBackward (layer_idx : nat)
  | TagUpdate (layer_idx : nat)
  | TagGradate
  | TagCalculate.

Definition tag_of (e : Model.event F) : call_tag :=
  match e with
  | Model.CallCompile i _ => TagCompile i
  | Model.CallForward i _ _ => TagForward i
  | Model.CallBackward i _ => TagBackward i
  | Model.CallUpdate i _ => TagUpdate i
  | Model.CallGradate _ _ => TagGradate
  | Model.CallCalculate _ _ => TagCalculate
  end.

(** A computation keeps the classes of the layers and the loss of the
    model, and adds calls to the history, all of them satisfying [P],
    whether it returns or raises. *)
Definition maintains {A} (C : list (Model.LayerClass F)) (L : Model.Loss F)
    (P : Model.event F -> Prop) (c : M (Model.t F) A) : Prop :=
  forall s, classes s = C -> Model._LOSS s = L ->
    exists evs,
      Model.calls (snd (c s)) = Model.calls s ++ evs /\ Forall P evs /\
      classes (snd (c s)) = C /\ Model._LOSS (snd (c s)) = L.

(** The model as [Model.__init__] finds it: the loss, the layers of the
    call and no call made yet. *)
Definition unbuilt (loss : Model.Loss F) (model_layers : list (Model.Layer F))
  : Model.t F :=
  {| Model._LOSS := loss; Model._LAYERS := model_layers; Model.calls := [] |}.

End ModelVocabulary.

(** * Properties *)

(** ** Arrays *)

Section Arrays.

Lemma size_of_cons d sh : size_of (d :: sh) = (d * size_of sh)%nat.
Proof. reflexivity. Qed.

Lemma broadcast_rev_same s : broadcast_rev s s = Some s.
Proof.
  induction s as [|d s IH]; [done|].
  simpl. rewrite IH. by rewrite Nat.eqb_refl.
Qed.

Lemma broadcast_shapes_same s : broadcast_shapes s s = Some s.
Proof.
  unfold broadcast_shapes. rewrite broadcast_rev_same. simpl.
  by rewrite reverse_involutive.
Qed.

(** Reading an array at its own shape is reading it in place. *)
Lemma broadcast_index_same s k :
  (k < size_of s)%nat → broadcast_index s s k = k.
Proof.
  unfold broadcast_index. rewrite Nat.sub_diag, drop_0.
  revert k. induction s as [|d s IH]; intros k Hk.
  - simpl in *. lia.
  - rewrite size_of_cons in Hk.
    assert (size_of s ≠ 0)%nat as Hp by (intros E; rewrite E in Hk; lia).
    cbn [unravel zip_with ravel].
    rewrite IH by (by apply Nat.mod_upper_bound).
    pose proof (Nat.div_mod_eq k (size_of s)) as Hdm.
    destruct (Nat.eqb_spec d 1) as [->|_].
    + rewrite Nat.mod_small by lia. lia.
    + lia.
Qed.

Lemma broadcast_to_same {A} (dflt : A) (a : ndarray A) :
  well_formed a → broadcast_to dflt a (shape a) = data a.
Proof.
  unfold well_formed, broadcast_to. intros Hwf.
  apply list_eq. intros i. rewrite list_lookup_fmap.
  destruct (decide (i < size_of (shape a))%nat) as [Hi|Hi].
  - rewrite lookup_seq_lt by done. simpl.
    rewrite broadcast_index_same by done.
    destruct (lookup_lt_is_Some_2 (data a) i) as [v Hv]; [lia|].
    by rewrite Hv.
  - rewrite lookup_seq_ge by lia. simpl.
    symmetry. apply lookup_ge_None. lia.
Qed.

(** On operands of one shape [np.where] selects element by element. *)
Lemma np_where_same_shape {A} (c : ndarray bool) (x : ndarray A) (y : A) :
  shape c = shape x → well_formed c → well_formed x →
  np_where c x y =
    inr (NDArray (shape x)
           (zip_with (fun (b : bool) v => if b then v else y)
              (data c) (data x))).
Proof.
  intros Hs Hc Hx. unfold np_where.
  rewrite Hs, broadcast_shapes_same.
  rewrite <- Hs at 2. by rewrite !broadcast_to_same.
Qed.

Lemma map_zip_with {A B C D} (f : C → D) (g : A → B → C) l k :
  map f (zip_with g l k) = zip_with (fun a b => f (g a b)) l k.
Proof.
  revert k. induction l as [|a l IH]; intros [|b k]; simpl; [done..|].
  by rewrite IH.
Qed.

Lemma shape_np_map {A B} (f : A → B) (a : ndarray A) :
  shape (np_map f a) = shape a.
Proof. reflexivity. Qed.

Lemma shape_index_last (sh : list nat) (w : nat) :
  last sh = Some w → shape_index sh (-1) = inr w.
Proof.
  intros Hl. unfold shape_index.
  assert (0 < length sh)%nat as Hlen by (destruct sh; [done|simpl; lia]).
  replace (-1 <? 0) with true by done.
  destruct (Z.ltb_spec (Z.of_nat (length sh) + -1) 0); [lia|].
  destruct (Z.leb_spec (Z.of_nat (length sh))
              (Z.of_nat (length sh) + -1)); [lia|].
  simpl. rewrite last_lookup in Hl.
  replace (Z.to_nat (Z.of_nat (length sh) + -1)) with (pred (length sh))
    by lia.
  by rewrite Hl.
Qed.

End Arrays.

(** ** The method monad *)

(** Unfold the monad in the goal. *)
Ltac run_method :=
  cbv beta delta [bind get ret raise lift modify] iota.


Section Monad.
Context {S : Type}.

Lemma bind_returns {A B} (c : M S A) (k : A → M S B) s b s'' :
  bind c k s = (inr b, s'') →
  ∃ a s', c s = (inr a, s') ∧ k a s' = (inr b, s'').
Proof.
  unfold bind. destruct (c s) as [[e|a] s']; [done|]. eauto.
Qed.

Lemma lift_returns {A} (r : result A) (s s' : S) a :
  lift r s = (inr a, s') → r = inr a ∧ s' = s.
Proof. unfold lift. by intros [= -> ->]. Qed.

End Monad.

(** ** The dropout layer *)

Section DropoutProperties.
Context {F : Type} `{Scalar F}.
Implicit Types (d : Dropout.t F) (x g : ndarray F).

Lemma length_kept d n : length (kept d n) = n.
Proof. unfold kept, draws. by rewrite !length_map, length_seq. Qed.

Lemma forward_checks_pass d x (w : nat) (in_training : bool) :
  Dropout._is_compiled d = true →
  last (shape x) = Some w →
  Dropout.units d = Some (Z.of_nat w) →
  Dropout.forward x in_training d =
    (if in_training then
       let '(filter_values, g) := Dropout.random (shape x)
                                    (Dropout._generator d) in
       let* _ := modify (Dropout.set_generator g) in
       let dropout_filter :=
         np_map (f_ltb (Dropout._RATE d)) filter_values in
       let* filtered_inputs := lift (np_where dropout_filter x f_zero) in
       let* _ := modify (Dropout.set_dropout_filter (Some dropout_filter)) in
       ret (np_map (rescale d) filtered_inputs)
     else ret x) d.
Proof.
  intros Hc Hl Hu. unfold Dropout.forward. run_method.
  rewrite Hc, (shape_index_last _ _ Hl), Hu. simpl.
  by rewrite Z.eqb_refl.
Qed.

(** The run of a training-mode [forward] whose checks pass. *)
Lemma forward_training_run d x (w : nat) :
  Dropout._is_compiled d = true →
  well_formed x →
  last (shape x) = Some w →
  Dropout.units d = Some (Z.of_nat w) →
  Dropout.forward x true d =
    (inr (NDArray (shape x)
            (zip_with (fun (keep : bool) v =>
                         rescale d (if keep then v else f_zero))
               (kept d (length (data x))) (data x))),
     after_training d (shape x) (length (data x))).
Proof.
  intros Hc Hwf Hl Hu.
  rewrite (forward_checks_pass d x w true Hc Hl Hu).
  unfold Dropout.random. run_method.
  rewrite np_where_same_shape; [|done| |done].
  - unfold after_training, kept, draws, np_map.
    rewrite Hwf. simpl. by rewrite map_zip_with.
  - unfold well_formed, np_map. simpl.
    by rewrite !length_map, length_seq.
Qed.

(** C4: on a compiled layer and an input whose trailing dimension is
    [units], a training-mode [forward] takes one draw of the generator
    per element of the input, keeps an element exactly when its draw
    exceeds the rate, replaces the others by zero, divides every
    element of the result by [1 - rate], and caches the filter. *)
Theorem forward_training_masks_and_rescales d x (w : nat) :
  Dropout._is_compiled d = true →
  well_formed x →
  last (shape x) = Some w →
  Dropout.units d = Some (Z.of_nat w) →
  let n := length (data x) in
  let keep := kept d n in
  length (draws d n) = n ∧
  keep = map (fun draw => f_ltb (Dropout._RATE d) draw) (draws d n) ∧
  Dropout.forward x true d =
    (inr (NDArray (shape x)
            (zip_with (fun (k : bool) v =>
                         f_div (if k then v else f_zero)
                           (f_sub f_one (Dropout._RATE d)))
               keep (data x))),
     after_training d (shape x) n) ∧
  Dropout._dropout_filter (after_training d (shape x) n) =
    Some (NDArray (shape x) keep).
Proof.
  intros Hc Hwf Hl Hu n keep.
  split; [unfold draws; by rewrite length_map, length_seq|].
  split; [done|]. split; [|done].
  apply (forward_training_run d x w Hc Hwf Hl Hu).
Qed.

(** C6: on a compiled layer and an input whose trailing dimension is
    [units], an inference-mode [forward] returns the input itself and
    leaves the layer, its cached filter included, as it was. *)
Theorem forward_inference_is_identity d x (w : nat) :
  Dropout._is_compiled d = true →
  last (shape x) = Some w →
  Dropout.units d = Some (Z.of_nat w) →
  Dropout.forward x false d = (inr x, d).
Proof.
  intros Hc Hl Hu. by rewrite (forward_checks_pass d x w false Hc Hl Hu).
Qed.

(** C10: a [compile] whose position or width is below one raises
    before it assigns anything: the layer is left as it was. *)
Theorem compile_atomic_on_error d (layer_idx input_units : Z) :
  layer_idx < 1 ∨ input_units < 1 →
  Dropout.compile layer_idx input_units d = (inl ValueError, d).
Proof.
  intros Hbad. unfold Dropout.compile.
  destruct (Z.ltb_spec layer_idx 1); [done|].
  destruct (Z.ltb_spec input_units 1); [done|lia].
Qed.

Lemma backward_checks_pass d g (n w : nat) :
  Dropout._is_compiled d = true →
  shape g = [n; w] →
  Dropout.backward g d =
    (if Dropout.differs w (Dropout.units d) then inl ValueError
     else np_where (as_condition (Dropout._dropout_filter d))
            (np_map (rescale d) g) f_zero,
     d).
Proof.
  intros Hc Hs. unfold Dropout.backward. run_method.
  rewrite Hc, Hs. simpl.
  destruct (Dropout.differs w (Dropout.units d)); [done|].
  by destruct (np_where _ _ _).
Qed.

Lemma differs_spec (w : nat) (u : option Z) :
  Dropout.differs w u = true ↔ u ≠ Some (Z.of_nat w).
Proof.
  destruct u as [z|]; simpl; [|done].
  destruct (Z.eqb_spec (Z.of_nat w) z); simpl; split; congruence.
Qed.

(** C7 (as amended): [backward] raises the not-ready condition on a
    layer that is not compiled, whatever its argument.  On a compiled
    layer and a two-dimensional gradient array it changes nothing in
    the layer, and it raises the shape-mismatch condition exactly when
    the trailing dimension of the array differs from [units] or the
    shape of the cached filter cannot be broadcast against the shape of
    the array; it raises nothing else. *)
Theorem backward_preconditions d g :
  (Dropout._is_compiled d = false →
   Dropout.backward g d = (inl AttributeError, d)) ∧
  (∀ n w : nat,
     Dropout._is_compiled d = true →
     shape g = [n; w] →
     snd (Dropout.backward g d) = d ∧
     (fst (Dropout.backward g d) = inl ValueError ↔
        Dropout.units d ≠ Some (Z.of_nat w) ∨
        broadcast_shapes
          (shape (as_condition (Dropout._dropout_filter d))) [n; w] = None) ∧
     (∀ e, fst (Dropout.backward g d) = inl e → e = ValueError)).
Proof.
  split.
  - intros Hc. unfold Dropout.backward. run_method. by rewrite Hc.
  - intros n w Hc Hs. rewrite (backward_checks_pass d g n w Hc Hs).
    simpl. split; [done|].
    pose proof (differs_spec w (Dropout.units d)) as Hd.
    destruct (Dropout.differs w (Dropout.units d)).
    + split; [|by intros e [= <-]].
      split; [|done]. intros _. left. by apply Hd.
    + assert (¬ Dropout.units d ≠ Some (Z.of_nat w)) as Hu
        by (intros Hne; apply Hd in Hne; done).
      unfold np_where. rewrite shape_np_map, Hs.
      destruct (broadcast_shapes _ _) as [rs|].
      * split; [|done]. split; [done|]. by intros [?|?].
      * split; [|by intros e [= <-]]. split; [by right|done].
Qed.

(** C5 (as amended): after a training-mode [forward] on a
    two-dimensional input, [backward] on a gradient array of that shape
    returns the gradients divided by [1 - rate], with zero wherever the
    filter cached by that [forward] is false.  The elements that
    [forward] replaced by zero get a zero gradient, and an element
    whose gradient is not zero was kept by [forward]. *)
Theorem backward_applies_cached_filter d x g (n w : nat) :
  Dropout._is_compiled d = true →
  Dropout.units d = Some (Z.of_nat w) →
  shape x = [n; w] → well_formed x →
  shape g = [n; w] → well_formed g →
  let keep := kept d (n * w) in
  let d' := snd (Dropout.forward x true d) in
  let input_grads :=
    zip_with (fun (c : bool) v => if c then rescale d v else f_zero)
      keep (data g) in
  fst (Dropout.forward x true d) =
    inr (NDArray [n; w]
           (zip_with (fun (c : bool) v =>
                        rescale d (if c then v else f_zero))
              keep (data x))) ∧
  Dropout.backward g d' = (inr (NDArray [n; w] input_grads), d') ∧
  (∀ i, keep !! i = Some false → input_grads !! i = Some f_zero) ∧
  (∀ i v, input_grads !! i = Some v → v ≠ f_zero → keep !! i = Some true).
Proof.
  intros Hc Hu Hsx Hwx Hsg Hwg keep d' input_grads.
  assert (length (data x) = n * w)%nat as Hlx
    by (rewrite Hwx, Hsx; simpl; lia).
  assert (length (data g) = n * w)%nat as Hlg
    by (rewrite Hwg, Hsg; simpl; lia).
  assert (last (shape x) = Some w) as Hl by (by rewrite Hsx).
  pose proof (forward_training_run d x w Hc Hwx Hl Hu) as Hf.
  rewrite Hlx, Hsx in Hf.
  subst d'. rewrite Hf. simpl.
  split; [done|]. split.
  - rewrite (backward_checks_pass _ g n w); [|done..].
    simpl. rewrite Hu. simpl. rewrite Z.eqb_refl. simpl.
    rewrite np_where_same_shape.
    + rewrite shape_np_map, Hsg. unfold np_map. simpl.
      by rewrite zip_with_fmap_r.
    + by rewrite shape_np_map, Hsg.
    + unfold well_formed. simpl. rewrite length_kept. lia.
    + unfold well_formed, np_map. simpl. by rewrite length_map.
  - subst input_grads. split.
    + intros i Hi.
      destruct (lookup_lt_is_Some_2 (data g) i) as [v Hv].
      { apply lookup_lt_Some in Hi.
        unfold keep in Hi. rewrite length_kept in Hi. lia. }
      rewrite lookup_zip_with, Hi. simpl. by rewrite Hv.
    + intros i v Hi Hv. rewrite lookup_zip_with in Hi.
      destruct (keep !! i) as [[|]|]; simpl in Hi; [done| |done].
      destruct (data g !! i); simpl in Hi; [|done].
      by injection Hi as <-.
Qed.

End DropoutProperties.

(** ** The dropout layer on concrete arrays *)

Section DropoutRuns.
Import Fixtures.

(** The scenario of the spec at rate 1/2: an all-ones input comes out
    as zeros and twos. *)
Lemma forward_training_masks_and_rescales_witness :
  (Dropout._is_compiled compiled_dropout = true ∧
   well_formed ones_2x3 ∧
   last (shape ones_2x3) = Some 3%nat ∧
   Dropout.units compiled_dropout = Some 3) ∧
  Dropout.forward ones_2x3 true compiled_dropout =
    (inr (NDArray [2; 3]%nat [2; 0; 2; 0; 2; 0]%float),
     after_training compiled_dropout [2; 3]%nat 6).
Proof.
  split; [by repeat split|].
  exact (proj1 (proj2 (proj2
           (forward_training_masks_and_rescales compiled_dropout ones_2x3 3
              eq_refl eq_refl eq_refl eq_refl)))).
Defined.

Lemma forward_inference_is_identity_witness :
  (Dropout._is_compiled compiled_dropout = true ∧
   last (shape ones_2x3) = Some 3%nat ∧
   Dropout.units compiled_dropout = Some 3) ∧
  Dropout.forward ones_2x3 false compiled_dropout =
    (inr ones_2x3, compiled_dropout).
Proof.
  split; [by repeat split|].
  exact (forward_inference_is_identity compiled_dropout ones_2x3 3
           eq_refl eq_refl eq_refl).
Defined.

Lemma compile_atomic_on_error_witness :
  (0 < 1 ∨ 3 < 1) ∧
  Dropout.compile 0 3 fresh_dropout = (inl ValueError, fresh_dropout).
Proof.
  split; [left; lia|].
  apply (compile_atomic_on_error fresh_dropout 0 3). left. lia.
Defined.

Lemma backward_preconditions_witness :
  (Dropout._is_compiled compiled_dropout = true ∧
   shape ones_2x3 = [2; 3]%nat) ∧
  snd (Dropout.backward ones_2x3 compiled_dropout) = compiled_dropout.
Proof.
  split; [done|].
  exact (proj1 (proj2 (backward_preconditions compiled_dropout ones_2x3)
                  2%nat 3%nat eq_refl eq_refl)).
Defined.

Lemma backward_applies_cached_filter_witness :
  (Dropout._is_compiled compiled_dropout = true ∧
   Dropout.units compiled_dropout = Some 3 ∧
   shape ones_2x3 = [2; 3]%nat ∧ well_formed ones_2x3) ∧
  Dropout.backward ones_2x3
    (snd (Dropout.forward ones_2x3 true compiled_dropout)) =
    (inr (NDArray [2; 3]%nat [2; 0; 2; 0; 2; 0]%float),
     snd (Dropout.forward ones_2x3 true compiled_dropout)).
Proof.
  split; [by repeat split|].
  exact (proj1 (proj2 (backward_applies_cached_filter compiled_dropout
                         ones_2x3 ones_2x3 2 3
                         eq_refl eq_refl eq_refl eq_refl eq_refl eq_refl))).
Defined.

(** A kept element whose incoming gradient is zero has a zero gradient:
    the zeros of the returned gradients are more than the elements the
    forward call replaced by zero. *)
Lemma backward_zero_gradient_at_kept_element :
  ∃ (filter : ndarray bool) (input_grads : ndarray float),
    let d' := snd (Dropout.forward ones_2x3 true compiled_dropout) in
    Dropout._dropout_filter d' = Some filter ∧
    Dropout.backward zeros_2x3 d' = (inr input_grads, d') ∧
    data filter !! 0%nat = Some true ∧
    data input_grads !! 0%nat = Some 0%float.
Proof.
  exists (NDArray [2; 3]%nat [true; false; true; false; true; false]).
  exists zeros_2x3. by vm_compute.
Qed.

(** A filter cached for one row is applied to a gradient of two rows:
    the shapes differ and [backward] returns without raising. *)
Lemma backward_broadcasts_mismatched_filter :
  ∃ (filter : ndarray bool) (input_grads : ndarray float),
    let d' := snd (Dropout.forward ones_1x3 true compiled_dropout) in
    Dropout._dropout_filter d' = Some filter ∧
    shape filter = [1; 3]%nat ∧
    shape ones_2x3 = [2; 3]%nat ∧
    Dropout.backward ones_2x3 d' = (inr input_grads, d').
Proof.
  exists (NDArray [1; 3]%nat [true; false; true]).
  exists (NDArray [2; 3]%nat [2; 0; 2; 2; 0; 2]%float). by vm_compute.
Qed.

(** [backward] reads the second dimension where [forward] reads the
    last: a three-dimensional array that [forward] accepts is refused
    as a gradient, and a one-dimensional one has no second dimension. *)
Example backward_checks_second_dimension :
  (∃ outputs d',
     Dropout.forward ones_2x2x3 true compiled_dropout = (inr outputs, d') ∧
     Dropout.backward ones_2x2x3 d' = (inl ValueError, d')) ∧
  (∃ outputs d',
     Dropout.forward (NDArray [3]%nat [1; 1; 1]%float) true
       compiled_dropout = (inr outputs, d') ∧
     Dropout.backward (NDArray [3]%nat [1; 1; 1]%float) d' =
       (inl IndexError, d')).
Proof.
  split; eexists _, _; by vm_compute.
Qed.

(** A layer that never ran in training mode has no filter, and
    [backward] returns zeros. *)
Example backward_without_filter :
  Dropout.backward ones_2x3 compiled_dropout =
    (inr zeros_2x3, compiled_dropout).
Proof. by vm_compute. Qed.

End DropoutRuns.

(** ** The model: the calls it makes *)

Section ModelCalls.
Context {F : Type} `{Scalar F}.
Implicit Types (P : Model.event F → Prop) (s : Model.t F).

Lemma emits_ret {A} P (a : A) : emits P (ret a).
Proof. intros s. exists []. by rewrite app_nil_r. Qed.

Lemma emits_raise {A} P e : emits P (@raise _ A e).
Proof. intros s. exists []. by rewrite app_nil_r. Qed.

Lemma emits_lift {A} P (r : result A) : emits P (lift r).
Proof. intros s. exists []. by rewrite app_nil_r. Qed.

Lemma emits_get P : emits P get.
Proof. intros s. exists []. by rewrite app_nil_r. Qed.

Lemma emits_bind {A B} P (c : M (Model.t F) A) (k : A → M (Model.t F) B) :
  emits P c → (∀ a, emits P (k a)) → emits P (bind c k).
Proof.
  intros Hc Hk s. destruct (Hc s) as (evs1 & E1 & F1).
  unfold bind. destruct (c s) as [[e|a] s1]; simpl in *.
  - by exists evs1.
  - destruct (Hk a s1) as (evs2 & E2 & F2).
    exists (evs1 ++ evs2). rewrite E2, E1, app_assoc.
    split; [done|]. by apply Forall_app.
Qed.

Lemma emits_for_each {A} P (xs : list A) (body : A → M (Model.t F) unit) :
  (∀ x, emits P (body x)) → emits P (for_each xs body).
Proof.
  intros Hb. induction xs as [|x xs IH]; simpl.
  - apply emits_ret.
  - apply emits_bind; [apply Hb|]. intros _. apply IH.
Qed.

Lemma emits_for_fold {A B} P (xs : list A) (acc : B)
    (body : A → B → M (Model.t F) B) :
  (∀ x b, emits P (body x b)) → emits P (for_fold xs acc body).
Proof.
  intros Hb. revert acc. induction xs as [|x xs IH]; intros acc; simpl.
  - apply emits_ret.
  - apply emits_bind; [apply Hb|]. intros b. apply IH.
Qed.

Lemma emits_log P e : P e → emits P (Model.log e).
Proof. intros He s. exists [e]. split; [done|]. by constructor. Qed.

Lemma emits_on_layer {A} P (i : nat)
    (method : ∀ c : Model.LayerClass F, M (Model.state c) A) :
  emits P (Model.on_layer i method).
Proof.
  intros s. exists []. rewrite app_nil_r. unfold Model.on_layer.
  destruct (Model._LAYERS s !! i) as [l|]; [|done].
  by destruct (method (Model.class l) (Model.attrs l)).
Qed.

Lemma emits_layer_forward P i x :
  P (Model.CallForward i x None) → emits P (Model.layer_forward i x).
Proof.
  intros HP. apply emits_bind; [by apply emits_log|].
  intros _. apply emits_on_layer.
Qed.

Lemma emits_layer_backward P i g :
  P (Model.CallBackward i g) → emits P (Model.layer_backward i g).
Proof.
  intros HP. apply emits_bind; [by apply emits_log|].
  intros _. apply emits_on_layer.
Qed.

Lemma emits_layer_update P i lr :
  P (Model.CallUpdate i lr) → emits P (Model.layer_update i lr).
Proof.
  intros HP. apply emits_bind; [by apply emits_log|].
  intros _. apply emits_on_layer.
Qed.

Lemma emits_loss_gradate P outputs labels :
  P (Model.CallGradate outputs labels) →
  emits P (Model.loss_gradate outputs labels).
Proof.
  intros HP. apply emits_bind; [by apply emits_log|].
  intros _. apply emits_bind; [apply emits_get|].
  intros self. apply emits_lift.
Qed.

Lemma emits_loss_calculate P outputs labels :
  P (Model.CallCalculate outputs labels) →
  emits P (Model.loss_calculate outputs labels).
Proof.
  intros HP. apply emits_bind; [by apply emits_log|].
  intros _. apply emits_bind; [apply emits_get|].
  intros self. apply emits_lift.
Qed.

Lemma emits_predict P examples :
  (∀ i x, P (Model.CallForward i x None)) →
  emits P (Model.predict examples).
Proof.
  intros HP. apply emits_bind; [apply emits_get|]. intros self.
  apply emits_for_fold. intros i x. by apply emits_layer_forward.
Qed.

(** What is left of [fit_batch] once the gradient of the loss is
    there: the backward pass and the updates. *)
Lemma emits_backward_and_update P (learning_rate : F) g :
  (∀ i x, P (Model.CallBackward i x)) →
  (∀ i lr, P (Model.CallUpdate i lr)) →
  emits P
    (let* self := get in
     let* _ :=
       for_fold (reverse (seq 0 (length (Model._LAYERS self)))) g
         (fun layer propagated_gradients =>
            Model.layer_backward layer propagated_gradients) in
     for_each (seq 0 (length (Model._LAYERS self))) (fun layer =>
       let* is_trainable := Model.layer_IS_TRAINABLE layer in
       if is_trainable then Model.layer_update layer learning_rate
       else ret tt)).
Proof.
  intros Hb Hu. apply emits_bind; [apply emits_get|]. intros self.
  apply emits_bind.
  - apply emits_for_fold. intros i x. by apply emits_layer_backward.
  - intros _. apply emits_for_each. intros i.
    apply emits_bind; [apply emits_on_layer|].
    intros [|]; [by apply emits_layer_update|apply emits_ret].
Qed.

Lemma emits_fit_batch P permuted_examples permuted_labels batch_size
    (learning_rate : F) batch :
  (∀ i x, P (Model.CallForward i x None)) →
  (∀ o l, P (Model.CallGradate o l)) →
  (∀ i x, P (Model.CallBackward i x)) →
  (∀ i lr, P (Model.CallUpdate i lr)) →
  emits P (Model.fit_batch permuted_examples permuted_labels batch_size
             learning_rate batch).
Proof.
  intros Hf Hg Hb Hu. unfold Model.fit_batch.
  apply emits_bind; [apply emits_lift|]. intros batch_examples.
  apply emits_bind; [apply emits_lift|]. intros batch_labels.
  apply emits_bind; [by apply emits_predict|]. intros batch_outputs.
  apply emits_bind; [by apply emits_loss_gradate|]. intros output_gradients.
  by apply emits_backward_and_update.
Qed.

Lemma emits_fit_batches P examples labels n_examples batch_size
    (learning_rate : F) shuffling_indices :
  (∀ i x, P (Model.CallForward i x None)) →
  (∀ o l, P (Model.CallGradate o l)) →
  (∀ i x, P (Model.CallBackward i x)) →
  (∀ i lr, P (Model.CallUpdate i lr)) →
  emits P (Model.fit_batches examples labels n_examples batch_size
             learning_rate shuffling_indices).
Proof.
  intros Hf Hg Hb Hu. unfold Model.fit_batches.
  apply emits_bind; [apply emits_lift|]. intros permuted_examples.
  apply emits_bind; [apply emits_lift|]. intros permuted_labels.
  apply emits_bind; [apply emits_lift|]. intros n_batches.
  apply emits_for_each. intros batch. by apply emits_fit_batch.
Qed.

Lemma emits_fit P uninitialised examples labels batch_size epochs
    (learning_rate : F) permutation :
  (∀ i x, P (Model.CallForward i x None)) →
  (∀ o l, P (Model.CallGradate o l)) →
  (∀ i x, P (Model.CallBackward i x)) →
  (∀ i lr, P (Model.CallUpdate i lr)) →
  (∀ o l, P (Model.CallCalculate o l)) →
  emits P (Model.fit uninitialised examples labels batch_size epochs
             learning_rate permutation).
Proof.
  intros Hf Hg Hb Hu Hc. unfold Model.fit.
  destruct (batch_size <? 1); [apply emits_raise|].
  destruct (epochs <? 1); [apply emits_raise|].
  apply emits_bind; [apply emits_lift|]. intros n_examples.
  apply emits_for_fold. intros epoch training_history.
  unfold Model.fit_epoch.
  apply emits_bind; [by apply emits_fit_batches|]. intros _.
  apply emits_bind; [by apply emits_predict|]. intros current_outputs.
  apply emits_bind; [by apply emits_loss_calculate|]. intros current_loss.
  apply emits_ret.
Qed.

End ModelCalls.

(** ** The model: construction *)

Section ModelConstruction.
Context {F : Type} `{Scalar F}.
Implicit Types (s : Model.t F).

Lemma on_layer_classes {A} (i : nat)
    (method : ∀ c : Model.LayerClass F, M (Model.state c) A) s :
  classes (snd (Model.on_layer i method s)) = classes s.
Proof.
  unfold Model.on_layer, classes.
  destruct (Model._LAYERS s !! i) as [l|] eqn:Hl; [|done].
  destruct (method (Model.class l) (Model.attrs l)) as [r a]. simpl.
  rewrite list_fmap_insert. simpl.
  apply list_insert_id. by rewrite list_lookup_fmap, Hl.
Qed.

(** A dropout layer refuses the call [compile(width)]. *)
Lemma layer_compile_dropout_raises base i width s :
  classes s !! i = Some (Model.Dropout_class base) →
  ∃ s', Model.layer_compile i width s = (inl TypeError, s').
Proof.
  intros Hc. unfold Model.layer_compile, Model.log. run_method.
  unfold Model.on_layer. simpl.
  unfold classes in Hc. rewrite list_lookup_fmap in Hc.
  destruct (Model._LAYERS s !! i) as [[c a]|]; [|done].
  simpl in Hc. injection Hc as ->. simpl. eauto.
Qed.

Lemma connect_step_dropout_raises base i s :
  i ≠ 0%nat →
  classes s !! i = Some (Model.Dropout_class base) →
  ∃ e s',
    (if (i =? 0)%nat then ret tt
     else let* width := Model.layer_UNITS (i - 1) in
          Model.layer_compile i width) s = (inl e, s').
Proof.
  intros Hi Hc. destruct (Nat.eqb_spec i 0) as [|_]; [done|].
  unfold bind.
  destruct (Model.layer_UNITS (i - 1) s) as [[e|width] s1] eqn:Hu; [eauto|].
  assert (classes s1 = classes s) as Hs1.
  { replace s1 with (snd (Model.layer_UNITS (i - 1) s)) by (by rewrite Hu).
    apply on_layer_classes. }
  rewrite <- Hs1 in Hc.
  destruct (layer_compile_dropout_raises base i width s1 Hc) as [s' ->].
  eauto.
Qed.

Lemma connect_step_classes i s :
  classes
    (snd ((if (i =? 0)%nat then ret tt
           else let* width := Model.layer_UNITS (i - 1) in
                Model.layer_compile i width) s)) = classes s.
Proof.
  destruct (i =? 0)%nat; [done|]. unfold bind.
  pose proof (on_layer_classes (i - 1)
                (fun c a => (Model.get_UNITS c a, a)) s) as H1.
  change (Model.on_layer (i - 1) _) with (@Model.layer_UNITS F (i - 1))
    in H1.
  destruct (Model.layer_UNITS (i - 1) s) as [[e|width] s1]; [done|].
  simpl in H1. rewrite <- H1.
  unfold Model.layer_compile, Model.log. run_method.
  match goal with
  | |- classes (snd (Model.on_layer i ?m ?s2)) = _ =>
      rewrite (on_layer_classes i m s2)
  end.
  done.
Qed.

Lemma connect_layers_dropout_raises base (idxs : list nat) i s :
  i ∈ idxs → i ≠ 0%nat →
  classes s !! i = Some (Model.Dropout_class base) →
  ∃ e s',
    for_each idxs (fun layer_idx =>
      if (layer_idx =? 0)%nat then ret tt
      else let* width := Model.layer_UNITS (layer_idx - 1) in
           Model.layer_compile layer_idx width) s = (inl e, s').
Proof.
  intros Hin Hi. revert s.
  induction idxs as [|j idxs IH]; intros s Hc.
  - by apply elem_of_nil in Hin.
  - simpl. unfold bind at 1.
    pose proof (connect_step_classes j s) as Hj.
    destruct (decide (i = j)) as [<-|Hne].
    + destruct (connect_step_dropout_raises base i s Hi Hc)
        as (e & s' & ->). eauto.
    + match goal with
      | |- context [match ?c with _ => _ end] =>
          destruct c as [[e|[]] s1] eqn:Hstep
      end; [eauto|].
      simpl in Hj. apply IH.
      * apply elem_of_cons in Hin as [?|?]; [done|done].
      * by rewrite Hj.
Qed.

Lemma check_layers_first_is_input verify_layer (layer : Model.Layer F)
    rest :
  Model.check_layers verify_layer 0 (layer :: rest) = inr tt →
  Model.isinstance_InputLayer (Model.class layer) = true.
Proof.
  simpl. destruct (verify_layer layer); simpl; [|done].
  by destruct (Model.isinstance_InputLayer (Model.class layer)).
Qed.

Lemma emits_connect_layers (n : nat) :
  emits (@single_argument_compile F) (Model.connect_layers n).
Proof.
  apply emits_for_each. intros i.
  destruct (i =? 0)%nat; [apply emits_ret|].
  apply emits_bind; [apply emits_on_layer|]. intros width.
  apply emits_bind; [by apply emits_log|].
  intros _. apply emits_on_layer.
Qed.

(** C3: [Model.__init__] calls [compile] with one argument, the width
    of the preceding layer, and never with a position.  A dropout layer
    takes a position and a width, so the constructor raises for every
    list of layers that holds one: no model with a dropout layer is ever
    built. *)
Theorem init_never_builds_a_model_with_dropout verify_layer
    (loss : Model.Loss F) (model_layers : list (Model.Layer F)) base
    (d : Dropout.t F) :
  Model.Dropout_layer base d ∈ model_layers →
  (∃ e, fst (Model.init verify_layer loss model_layers) = inl e) ∧
  Forall single_argument_compile
    (Model.calls (snd (Model.init verify_layer loss model_layers))).
Proof.
  intros Hin. split.
  - apply list_elem_of_lookup in Hin as [i Hi].
    unfold Model.init, bind, lift.
    destruct (Model.check_layers verify_layer 0 model_layers)
      as [e|[]] eqn:Hcheck; [eauto|].
    destruct i as [|i].
    + destruct model_layers as [|l rest]; [done|].
      apply check_layers_first_is_input in Hcheck.
      injection Hi as ->. done.
    + destruct (connect_layers_dropout_raises base
                  (seq 0 (length model_layers)) (S i)
                  {| Model._LOSS := loss; Model._LAYERS := model_layers;
                     Model.calls := [] |}) as (e & s' & Hr).
      * apply elem_of_seq. apply lookup_lt_Some in Hi. lia.
      * done.
      * unfold classes. simpl. by rewrite list_lookup_fmap, Hi.
      * unfold Model.connect_layers. rewrite Hr. eauto.
  - unfold Model.init.
    match goal with
    | |- Forall _ (Model.calls (snd (?c ?s0))) =>
        assert (emits (@single_argument_compile F) c) as Hem;
        [|destruct (Hem s0) as (evs & -> & Hevs); done]
    end.
    apply emits_bind; [apply emits_lift|].
    intros _. apply emits_connect_layers.
Qed.

End ModelConstruction.

(** ** The model on concrete layers *)

Section ModelRuns.
Import Fixtures.

Lemma init_never_builds_a_model_with_dropout_witness :
  Model.Dropout_layer Dropout_base fresh_dropout
    ∈ [Input_layer 3; Model.Dropout_layer Dropout_base fresh_dropout] ∧
  ∃ e, fst (Model.init (fun _ => true) difference_loss
              [Input_layer 3;
               Model.Dropout_layer Dropout_base fresh_dropout]) = inl e.
Proof.
  assert (Model.Dropout_layer Dropout_base fresh_dropout
            ∈ [Input_layer 3;
               Model.Dropout_layer Dropout_base fresh_dropout]) as Hin
    by (apply elem_of_cons; right; apply elem_of_cons; by left).
  split; [exact Hin|].
  exact (proj1 (init_never_builds_a_model_with_dropout (fun _ => true)
                  difference_loss _ Dropout_base fresh_dropout Hin)).
Defined.

(** The constructor on an input layer followed by a dropout layer: the
    one call of [compile] carries the width alone, the dropout layer
    raises [TypeError] and stays uncompiled. *)
Example init_input_then_dropout :
  Model.init (fun _ => true) difference_loss
    [Input_layer 3; Model.Dropout_layer Dropout_base fresh_dropout] =
  (inl TypeError,
   {| Model._LOSS := difference_loss;
      Model._LAYERS :=
        [Input_layer 3; Model.Dropout_layer Dropout_base fresh_dropout];
      Model.calls := [Model.CallCompile 1 [3]] |}).
Proof. by vm_compute. Qed.

(** C2: [Model.predict] calls [forward] on the layers in order, and on
    every call it passes the inputs alone: [in_training] is never given,
    neither as false nor as true.  On a dropout layer, whose [forward]
    requires the argument, the call raises [TypeError]. *)
Theorem predict_passes_no_training_flag :
  (∀ (F : Type) (examples : ndarray F),
     emits no_training_flag (Model.predict examples)) ∧
  Model.predict ones_2x3 dropout_model =
    (inl TypeError,
     {| Model._LOSS := difference_loss;
        Model._LAYERS := Model._LAYERS dropout_model;
        Model.calls := [Model.CallForward 0 ones_2x3 None;
                        Model.CallForward 1 ones_2x3 None] |}).
Proof.
  split; [|by vm_compute].
  intros F examples. by apply emits_predict.
Qed.

(** C1: [Model.fit] propagates every batch through [Model.predict]: no
    call of [forward] that it makes carries [in_training], so no layer is
    told that the model is training.  On a dropout layer the first
    batch raises [TypeError]. *)
Theorem fit_passes_no_training_flag :
  (∀ (F : Type) uninitialised (examples labels : ndarray F)
     batch_size epochs learning_rate permutation,
     emits no_training_flag
       (Model.fit uninitialised examples labels batch_size epochs
          learning_rate permutation)) ∧
  fst (Model.fit (fun _ => 0%float) four_examples four_labels 2 1
         0.5%float (rotation 4) dropout_model) = inl TypeError.
Proof.
  split; [|by vm_compute].
  intros F uninitialised examples labels batch_size epochs learning_rate
    permutation.
  by apply emits_fit.
Qed.

(** On layers that accept the call, [fit] runs, and the history shows
    the steps of a batch in order: the forward calls without
    [in_training], [gradate], the backward calls in reverse order, and
    [update] on the trainable layer. *)
Example fit_one_batch_calls :
  ∃ x1 o g1 g0 x2 o2,
    Model.calls
      (snd (Model.fit (fun _ => 0%float) four_examples four_labels 3 1
              0.5%float (rotation 4) scale_model)) =
    Model.calls scale_model ++
    [Model.CallForward 0 four_examples None;
     Model.CallForward 1 x1 None;
     Model.CallGradate o four_labels;
     Model.CallBackward 1 g1;
     Model.CallBackward 0 g0;
     Model.CallUpdate 1 0.5%float;
     Model.CallForward 0 four_examples None;
     Model.CallForward 1 x2 None;
     Model.CallCalculate o2 four_labels].
Proof. repeat eexists. Qed.

End ModelRuns.

(** ** The model: training *)

Section ModelTraining.
Context {F : Type} `{Scalar F}.
Implicit Types (m : Model.t F) (examples labels : ndarray F).

Lemma fit_epoch_returns examples labels n_examples batch_size
    (learning_rate : F) permutation epoch training_history m history' m' :
  Model.fit_epoch examples labels n_examples batch_size learning_rate
    permutation epoch training_history m = (inr history', m') →
  ∃ m1 m2 outputs loss,
    Model.fit_batches examples labels n_examples batch_size learning_rate
      (permutation epoch) m = (inr tt, m1) ∧
    Model.predict examples m1 = (inr outputs, m2) ∧
    Model.loss_calculate outputs labels m2 = (inr loss, m') ∧
    history' = <[epoch := loss]> training_history.
Proof.
  unfold Model.fit_epoch. intros Hrun.
  apply bind_returns in Hrun as ([] & m1 & Hb & Hrun).
  apply bind_returns in Hrun as (outputs & m2 & Hp & Hrun).
  apply bind_returns in Hrun as (loss & m3 & Hl & Hrun).
  injection Hrun as <- <-. by exists m1, m2, outputs, loss.
Qed.


(** What [loss_calculate] stands for: one call of the loss's
    [calculate], recorded in the history. *)
Lemma loss_calculate_returns outputs labels m loss m' :
  Model.loss_calculate outputs labels m = (inr loss, m') →
  Model.calculate (Model._LOSS m) outputs labels = inr loss ∧
  Model.calls m' = Model.calls m ++ [Model.CallCalculate outputs labels] ∧
  Model._LAYERS m' = Model._LAYERS m.
Proof.
  unfold Model.loss_calculate, Model.log. run_method. simpl.
  destruct (Model.calculate (Model._LOSS m) outputs labels); [done|].
  by intros [= -> <-].
Qed.


(** Calls other than [gradate] add no labels. *)
Lemma emits_no_gradate {A} (c : M (Model.t F) A) m a m' :
  emits (fun e => gradate_labels_of e = None) c →
  c m = (inr a, m') →
  ∃ evs, Model.calls m' = Model.calls m ++ evs ∧ gradate_labels evs = [].
Proof.
  intros Hc Hrun. destruct (Hc m) as (evs & Hevs & Hquiet).
  rewrite Hrun in Hevs. exists evs. split; [done|].
  unfold gradate_labels. clear Hevs.
  induction Hquiet as [|e evs He _ IH]; [done|].
  simpl. by rewrite He.
Qed.

Lemma loss_gradate_returns outputs labels m gradients m' :
  Model.loss_gradate outputs labels m = (inr gradients, m') →
  Model.gradate (Model._LOSS m) outputs labels = inr gradients ∧
  Model.calls m' = Model.calls m ++ [Model.CallGradate outputs labels].
Proof.
  unfold Model.loss_gradate, Model.log. run_method. simpl.
  destruct (Model.gradate (Model._LOSS m) outputs labels); [done|].
  by intros [= -> <-].
Qed.

(** A batch that runs calls [gradate] once, on its slice of the
    shuffled labels. *)
Lemma fit_batch_labels permuted_examples permuted_labels batch_size
    (learning_rate : F) batch m m' :
  Model.fit_batch permuted_examples permuted_labels batch_size
    learning_rate batch m = (inr tt, m') →
  ∃ evs batch_labels,
    Model.calls m' = Model.calls m ++ evs ∧
    slice_rows permuted_labels
      (Z.to_nat (batch_size * Z.of_nat batch))
      (Z.to_nat (batch_size * (Z.of_nat batch + 1))) = inr batch_labels ∧
    gradate_labels evs = [batch_labels].
Proof.
  unfold Model.fit_batch. intros Hrun.
  apply bind_returns in Hrun as (batch_examples & m0 & Hx & Hrun).
  apply lift_returns in Hx as [Hx ->].
  apply bind_returns in Hrun as (batch_labels & m0 & Hl & Hrun).
  apply lift_returns in Hl as [Hl ->].
  apply bind_returns in Hrun as (batch_outputs & m1 & Hp & Hrun).
  apply bind_returns in Hrun as (output_gradients & m2 & Hg & Hrun).
  apply emits_no_gradate in Hp as (evs1 & E1 & Q1);
    [|by apply emits_predict].
  apply loss_gradate_returns in Hg as [_ E2].
  apply emits_no_gradate in Hrun as (evs3 & E3 & Q3);
    [|by apply emits_backward_and_update].
  exists (evs1 ++ [Model.CallGradate batch_outputs batch_labels] ++ evs3),
    batch_labels.
  split; [by rewrite E3, E2, E1, <- !app_assoc|]. split; [done|].
  unfold gradate_labels in *. rewrite !omap_app, Q1, Q3. done.
Qed.

Lemma batch_loop_labels permuted_examples permuted_labels batch_size
    (learning_rate : F) (batches : list nat) m m' :
  for_each batches
    (Model.fit_batch permuted_examples permuted_labels batch_size
       learning_rate) m = (inr tt, m') →
  ∃ evs,
    Model.calls m' = Model.calls m ++ evs ∧
    map inr (gradate_labels evs) =
      map (fun batch =>
             slice_rows permuted_labels
               (Z.to_nat (batch_size * Z.of_nat batch))
               (Z.to_nat (batch_size * (Z.of_nat batch + 1))))
        batches.
Proof.
  revert m. induction batches as [|batch batches IH]; intros m Hrun.
  - injection Hrun as <-. exists []. by rewrite app_nil_r.
  - simpl in Hrun. apply bind_returns in Hrun as ([] & m1 & Hb & Hrun).
    apply fit_batch_labels in Hb as (evs1 & batch_labels & E1 & Hs & L1).
    apply IH in Hrun as (evs2 & E2 & L2).
    exists (evs1 ++ evs2). split; [by rewrite E2, E1, app_assoc|].
    unfold gradate_labels in *. rewrite omap_app, map_app, L1, L2.
    simpl. by rewrite Hs.
Qed.

Lemma fit_batches_labels examples labels n_examples batch_size
    (learning_rate : F) shuffling_indices m m' :
  Model.fit_batches examples labels n_examples batch_size learning_rate
    shuffling_indices m = (inr tt, m') →
  ∃ evs,
    Model.calls m' = Model.calls m ++ evs ∧
    map inr (gradate_labels evs) =
      map (batch_of labels shuffling_indices batch_size)
        (range (Z.of_nat n_examples / batch_size)).
Proof.
  unfold Model.fit_batches. intros Hrun.
  apply bind_returns in Hrun as (permuted_examples & m0 & Hx & Hrun).
  apply lift_returns in Hx as [Hx ->].
  apply bind_returns in Hrun as (permuted_labels & m0 & Hl & Hrun).
  apply lift_returns in Hl as [Hl ->].
  apply bind_returns in Hrun as (n_batches & m0 & Hq & Hrun).
  apply lift_returns in Hq as [Hq ->].
  unfold Model.floordiv in Hq.
  destruct (batch_size =? 0); [done|]. injection Hq as <-.
  apply batch_loop_labels in Hrun as (evs & E & L).
  exists evs. split; [done|]. rewrite L.
  apply map_ext. intros batch. unfold batch_of. by rewrite Hl.
Qed.

Lemma epoch_loop_labels examples labels n_examples batch_size
    (learning_rate : F) permutation (epochs : list nat)
    (training_history : list F) m history' m' :
  for_fold epochs training_history
    (Model.fit_epoch examples labels n_examples batch_size learning_rate
       permutation) m = (inr history', m') →
  ∃ evs,
    Model.calls m' = Model.calls m ++ evs ∧
    map inr (gradate_labels evs) =
      flat_map (fun epoch =>
                  map (batch_of labels (permutation epoch) batch_size)
                    (range (Z.of_nat n_examples / batch_size)))
        epochs.
Proof.
  revert training_history m.
  induction epochs as [|epoch epochs IH]; intros training_history m Hrun.
  - injection Hrun as _ <-. exists []. by rewrite app_nil_r.
  - simpl in Hrun.
    apply bind_returns in Hrun as (history1 & m1 & Hepoch & Hrun).
    apply fit_epoch_returns in Hepoch
      as (ma & mb & outputs & loss & Hb & Hp & Hl & _).
    apply fit_batches_labels in Hb as (evs1 & E1 & L1).
    apply emits_no_gradate in Hp as (evs2 & E2 & Q2);
      [|by apply emits_predict].
    apply loss_calculate_returns in Hl as (_ & E3 & _).
    apply IH in Hrun as (evs4 & E4 & L4).
    exists (evs1 ++ evs2 ++ [Model.CallCalculate outputs labels] ++ evs4).
    split; [by rewrite E4, E3, E2, E1, <- !app_assoc|].
    unfold gradate_labels in *.
    rewrite !omap_app, !map_app, L1, Q2, L4. done.
Qed.

(** C8 (as amended): on a data set of at least one example and for a
    batch size of at least one, the batch size that exceeds half the
    data set becomes the size of the data set and gives one batch per
    epoch; any other batch size is kept and gives [n_examples //
    batch_size] batches per epoch.  The batches are the consecutive
    slices of the shuffled data, so fewer than [batch_size] examples at
    the end of the shuffle are in no batch.  A [fit] that returns has run
    exactly these batches in every epoch, in order. *)
Theorem fit_batches_per_epoch (n_examples : nat) (batch_size : Z) :
  1 ≤ batch_size → (1 ≤ n_examples)%nat →
  let b := Model.effective_batch_size n_examples batch_size in
  let n_batches := Z.of_nat n_examples / b in
  Model.floordiv (Z.of_nat n_examples) b = inr n_batches ∧
  (Z.of_nat n_examples < 2 * batch_size →
   b = Z.of_nat n_examples ∧ n_batches = 1) ∧
  (2 * batch_size ≤ Z.of_nat n_examples →
   b = batch_size ∧ n_batches = Z.of_nat n_examples / batch_size) ∧
  b * n_batches ≤ Z.of_nat n_examples < b * n_batches + b ∧
  (∀ uninitialised examples labels epochs (learning_rate : F)
     permutation m history m',
     shape_index (shape examples) 0 = inr n_examples →
     Model.fit uninitialised examples labels batch_size epochs
       learning_rate permutation m = (inr history, m') →
     ∃ evs,
       Model.calls m' = Model.calls m ++ evs ∧
       map inr (gradate_labels evs) =
         flat_map (fun epoch =>
                     map (batch_of labels (permutation epoch) b)
                       (range n_batches))
           (range epochs)).
Proof.
  intros Hb Hn b n_batches.
  assert (1 ≤ b) as Hb1.
  { unfold b, Model.effective_batch_size.
    destruct (Z.of_nat n_examples <? 2 * batch_size); lia. }
  split; [|split; [|split; [|split]]].
  - unfold Model.floordiv. by destruct (Z.eqb_spec b 0); [lia|].
  - intros Hlt. unfold n_batches, b, Model.effective_batch_size.
    destruct (Z.ltb_spec (Z.of_nat n_examples) (2 * batch_size)); [|lia].
    split; [done|]. apply Z.div_same. lia.
  - intros Hge. unfold n_batches, b, Model.effective_batch_size.
    destruct (Z.ltb_spec (Z.of_nat n_examples) (2 * batch_size)); [lia|].
    done.
  - pose proof (Z.div_mod (Z.of_nat n_examples) b ltac:(lia)) as Hdm.
    pose proof (Z.mod_pos_bound (Z.of_nat n_examples) b ltac:(lia)).
    fold n_batches in Hdm. lia.
  - intros uninitialised examples labels epochs learning_rate permutation
      m history m' Hshape Hrun.
    unfold Model.fit in Hrun.
    destruct (batch_size <? 1); [done|].
    destruct (epochs <? 1); [done|].
    apply bind_returns in Hrun as (n & m0 & Hn0 & Hrun).
    apply lift_returns in Hn0 as [Hn0 ->].
    rewrite Hshape in Hn0. injection Hn0 as <-.
    by apply epoch_loop_labels in Hrun.
Qed.

End ModelTraining.

(** ** Training on concrete data *)

Section ModelTrainingRuns.
Import Fixtures.


(** Four examples in batches of three: the batch size exceeds half the
    data set, so each of the two epochs has one batch of all four
    examples. *)
Lemma fit_batches_per_epoch_witness :
  (1 ≤ 3 ∧ (1 ≤ 4)%nat) ∧
  Model.effective_batch_size 4 3 = 4 ∧
  ∃ history m' evs,
    Model.fit (fun _ => 0%float) four_examples four_labels 3 2 0.5%float
      (rotation 4) scale_model = (inr history, m') ∧
    Model.calls m' = Model.calls scale_model ++ evs ∧
    map inr (gradate_labels evs) =
      [batch_of four_labels (rotation 4 0) 4 0;
       batch_of four_labels (rotation 4 1) 4 0].
Proof.
  assert (1 ≤ 3) as Hb by lia.
  assert (1 ≤ 4)%nat as Hn by lia.
  split; [done|]. split; [done|].
  destruct (fit_batches_per_epoch (F := float) 4 3 Hb Hn)
    as (_ & _ & _ & _ & Hfit).
  eexists _, _.
  match goal with
  | |- ∃ evs, ?run ∧ _ =>
      assert run as Hrun by (by vm_compute);
      destruct (Hfit (fun _ => 0%float) four_examples four_labels 2
                  0.5%float (rotation 4) scale_model _ _ eq_refl Hrun)
        as (evs & E & L)
  end.
  exists evs. split; [exact Hrun|]. split; [exact E|]. exact L.
Defined.

(** An empty data set: every batch size of at least one exceeds half of
    it and is replaced by zero, and the first epoch raises
    [ZeroDivisionError] before any batch. *)
Lemma fit_empty_data_set_divides_by_zero :
  Z.of_nat 0 < 2 * 1 ∧
  shape_index (shape no_examples) 0 = inr 0%nat ∧
  Model.effective_batch_size 0 1 = 0 ∧
  Model.floordiv (Z.of_nat 0) (Model.effective_batch_size 0 1) =
    inl ZeroDivisionError ∧
  Model.fit (fun _ => 0%float) no_examples no_examples 1 1 0.5%float
    (rotation 0) scale_model = (inl ZeroDivisionError, scale_model).
Proof. repeat split. Qed.

End ModelTrainingRuns.

(** ** The dropout layer: errors, readiness and the cached filter *)

Section DropoutBehaviour.
Context {F : Type} `{Scalar F}.
Implicit Types (d : Dropout.t F) (x g : ndarray F).

Lemma shape_index_last_empty : shape_index [] (-1) = inl IndexError.
Proof. reflexivity. Qed.

Lemma last_of_shape (sh : list nat) :
  sh = [] ∨ ∃ w, last sh = Some w.
Proof.
  destruct (last sh) as [w|] eqn:Hl; [right; eauto|].
  left. by apply last_None.
Qed.

(** Every outcome of [forward] and the one condition that leads to it:
    [forward] raises [AttributeError] on a layer that is not compiled,
    [IndexError] on a compiled layer and a zero-dimensional input,
    [ValueError] on a compiled layer and a trailing dimension other than
    [units], and nothing else; whenever it raises, the layer is as it
    was (no draw is taken, the filter is not replaced).  When it returns,
    the output has the shape of the input. *)
Theorem forward_outcomes d x (in_training : bool) :
  match Dropout.forward x in_training d with
  | (inl AttributeError, d') => Dropout._is_compiled d = false ∧ d' = d
  | (inl IndexError, d') =>
      Dropout._is_compiled d = true ∧ shape x = [] ∧ d' = d
  | (inl ValueError, d') =>
      Dropout._is_compiled d = true ∧
      (∃ w, last (shape x) = Some w ∧ Dropout.units d ≠ Some (Z.of_nat w)) ∧
      d' = d
  | (inl _, _) => False
  | (inr outputs, _) =>
      Dropout._is_compiled d = true ∧
      (∃ w, last (shape x) = Some w ∧ Dropout.units d = Some (Z.of_nat w)) ∧
      shape outputs = shape x
  end.
Proof.
  unfold Dropout.forward. run_method.
  destruct (Dropout._is_compiled d) eqn:Hc; simpl; [|done].
  destruct (last_of_shape (shape x)) as [Hs|[w Hw]].
  - rewrite Hs. by simpl.
  - rewrite (shape_index_last _ _ Hw).
    pose proof (differs_spec w (Dropout.units d)) as Hd.
    destruct (Dropout.differs w (Dropout.units d)).
    + split; [done|]. split; [|done]. exists w. split; [done|]. by apply Hd.
    + assert (Dropout.units d = Some (Z.of_nat w)) as Hu.
      { destruct (decide (Dropout.units d = Some (Z.of_nat w))); [done|].
        by apply Hd in n. }
      destruct in_training; [|eauto].
      unfold Dropout.random, np_where. simpl.
      rewrite broadcast_shapes_same. simpl. eauto.
Qed.

(** The run of a [compile] whose checks pass. *)
Lemma compile_run d (layer_idx input_units : Z) :
  1 ≤ layer_idx → 1 ≤ input_units →
  Dropout.compile layer_idx input_units d =
    (inr tt,
     Dropout.set_is_compiled true
       (Dropout.set_network_id (Some ("Dropout" +:+ pretty layer_idx))
          (Dropout.set_units (Some input_units) d))).
Proof.
  intros Hi Hu. unfold Dropout.compile.
  destruct (Z.ltb_spec layer_idx 1); [lia|].
  by destruct (Z.ltb_spec input_units 1); [lia|].
Qed.

(** A [compile] with a position and a width of at least one returns; it
    binds [units], names the layer after its position and marks it
    compiled, and leaves the rate, the generator and the cached filter
    alone.  A later [compile] overrides an earlier one completely. *)
Theorem compile_binds_and_overrides d (layer_idx input_units : Z)
    (layer_idx' input_units' : Z) :
  1 ≤ layer_idx → 1 ≤ input_units →
  1 ≤ layer_idx' → 1 ≤ input_units' →
  let d1 := snd (Dropout.compile layer_idx input_units d) in
  fst (Dropout.compile layer_idx input_units d) = inr tt ∧
  Dropout.units d1 = Some input_units ∧
  Dropout._network_id d1 = Some ("Dropout" +:+ pretty layer_idx) ∧
  Dropout._is_compiled d1 = true ∧
  Dropout._RATE d1 = Dropout._RATE d ∧
  Dropout._generator d1 = Dropout._generator d ∧
  Dropout._dropout_filter d1 = Dropout._dropout_filter d ∧
  Dropout.IS_TRAINABLE d1 = Dropout.IS_TRAINABLE d ∧
  Dropout.compile layer_idx' input_units' d1 =
    Dropout.compile layer_idx' input_units' d.
Proof.
  intros Hi Hu Hi' Hu' d1. subst d1. unfold Dropout.compile.
  destruct (Z.ltb_spec layer_idx 1); [lia|].
  destruct (Z.ltb_spec input_units 1); [lia|].
  destruct (Z.ltb_spec layer_idx' 1); [lia|].
  destruct (Z.ltb_spec input_units' 1); [lia|].
  by repeat split.
Qed.

(** [compile] is what makes a layer ready: whatever the layer was, after
    a [compile] for [w] units an inference-mode [forward] returns an
    input whose trailing dimension is [w] and refuses, with
    [ValueError], every other trailing dimension. *)
Theorem compile_then_forward d (layer_idx : Z) (w w' : nat) x :
  1 ≤ layer_idx → (1 ≤ w)%nat →
  last (shape x) = Some w' →
  let d1 := snd (Dropout.compile layer_idx (Z.of_nat w) d) in
  Dropout.forward x false d1 =
    (if decide (w' = w) then inr x else inl ValueError, d1).
Proof.
  intros Hi Hw Hl d1.
  subst d1. rewrite (compile_run d layer_idx (Z.of_nat w)) by lia.
  unfold Dropout.forward. run_method. simpl.
  rewrite (shape_index_last _ _ Hl). simpl.
  destruct (decide (w' = w)) as [->|Hne].
  - by rewrite Z.eqb_refl.
  - by destruct (Z.eqb_spec (Z.of_nat w') (Z.of_nat w)); [lia|].
Qed.

(** [backward] never changes the layer, whether it returns or raises:
    the cached filter is read, not consumed, so any later [backward]
    finds the layer as the first one did. *)
Theorem backward_leaves_layer_unchanged d g :
  snd (Dropout.backward g d) = d.
Proof.
  unfold Dropout.backward. run_method.
  destruct (Dropout._is_compiled d); simpl; [|done].
  destruct (shape_index (shape g) 1) as [e|dim]; [done|].
  destruct (Dropout.differs dim (Dropout.units d)); [done|].
  by destruct (np_where _ _ _).
Qed.

Lemma zip_with_no_condition (N : nat) (l : list F) :
  length l = N →
  zip_with (fun (c : bool) v => if c then v else f_zero)
    (map (fun _ : nat => false) (seq 0 N)) l = replicate N f_zero.
Proof.
  generalize 0%nat. revert l.
  induction N as [|N IH]; intros [|v l] start Hl; simpl in *; try done.
  f_equal. apply IH. lia.
Qed.

(** On a compiled layer that never ran in training mode there is no
    filter, and [backward] does not raise: it returns zeros for every
    two-dimensional gradient array of the right width. *)
Theorem backward_without_filter_returns_zeros d g (n w : nat) :
  Dropout._is_compiled d = true →
  Dropout._dropout_filter d = None →
  Dropout.units d = Some (Z.of_nat w) →
  shape g = [n; w] →
  Dropout.backward g d =
    (inr (NDArray [n; w] (replicate (n * w) f_zero)), d).
Proof.
  intros Hc Hf Hu Hs.
  rewrite (backward_checks_pass d g n w Hc Hs), Hu. simpl.
  rewrite Z.eqb_refl, Hf. simpl.
  unfold np_where. rewrite shape_np_map, Hs. simpl.
  unfold broadcast_to at 1. simpl.
  rewrite zip_with_no_condition.
  - by replace (n * (w * 1))%nat with (n * w)%nat by lia.
  - unfold broadcast_to. by rewrite length_map, length_seq.
Qed.

(** [backward] reads the second dimension of its argument: on a compiled
    layer an array of fewer than two dimensions raises [IndexError],
    although [forward] accepts a one-dimensional input of [units]
    elements. *)
Theorem backward_needs_two_dimensions d g :
  Dropout._is_compiled d = true →
  (length (shape g) < 2)%nat →
  Dropout.backward g d = (inl IndexError, d).
Proof.
  intros Hc Hlen. unfold Dropout.backward. run_method. rewrite Hc. simpl.
  unfold shape_index. simpl.
  by destruct (Z.leb_spec (Z.of_nat (length (shape g))) 1); [|lia].
Qed.

(** On an array of two or more dimensions [backward] compares [units]
    with the second dimension, not with the last: whatever the trailing
    dimension, a second dimension other than [units] raises
    [ValueError]. *)
Theorem backward_checks_second_dimension_only d g (a b : nat)
    (rest : list nat) :
  Dropout._is_compiled d = true →
  shape g = a :: b :: rest →
  Dropout.units d ≠ Some (Z.of_nat b) →
  Dropout.backward g d = (inl ValueError, d).
Proof.
  intros Hc Hs Hu. unfold Dropout.backward. run_method.
  rewrite Hc, Hs. simpl.
  unfold shape_index. simpl.
  destruct (Z.leb_spec (Z.of_nat (S (S (length rest)))) 1); [lia|].
  simpl. apply differs_spec in Hu. by rewrite Hu.
Qed.

(** Two training-mode passes in a row never share a draw: the second
    pass takes the draws that follow those of the first, and its filter
    replaces the first one. *)
Theorem successive_training_passes_use_fresh_draws d x y (w : nat) :
  Dropout._is_compiled d = true →
  Dropout.units d = Some (Z.of_nat w) →
  well_formed x → last (shape x) = Some w →
  well_formed y → last (shape y) = Some w →
  let d1 := snd (Dropout.forward x true d) in
  let d2 := snd (Dropout.forward y true d1) in
  let gen := Dropout._generator d in
  Dropout._dropout_filter d2 =
    Some (NDArray (shape y)
            (map (fun k =>
                    f_ltb (Dropout._RATE d)
                      (Dropout.stream gen
                         (Dropout.position gen + length (data x) + k)%nat))
               (seq 0 (length (data y))))) ∧
  Dropout.position (Dropout._generator d2) =
    (Dropout.position gen + length (data x) + length (data y))%nat.
Proof.
  intros Hc Hu Hwx Hlx Hwy Hly d1 d2 gen.
  subst d2 d1.
  rewrite (forward_training_run d x w Hc Hwx Hlx Hu). simpl.
  rewrite (forward_training_run _ y w); [|done..].
  simpl. split; [|done].
  unfold kept, draws. simpl. by rewrite map_map.
Qed.

(** [Dropout.__init__] refuses a rate that is not strictly between 0
    and 1 with [ValueError].  A layer it builds keeps the rate, has no
    units and no filter, and, once compiled, masks its first
    training-mode input with the first draws of its own generator,
    scaled by the rate it was built with. *)
Theorem init_checks_rate_and_starts_clean (rate : F) (entropy : nat → F) :
  (f_ltb f_zero rate && f_ltb rate f_one = false →
   Dropout.init rate entropy = inl ValueError) ∧
  (f_ltb f_zero rate && f_ltb rate f_one = true →
   ∃ d,
     Dropout.init rate entropy = inr d ∧
     Dropout._RATE d = rate ∧
     Dropout.units d = None ∧
     Dropout._dropout_filter d = None ∧
     ∀ (layer_idx : Z) (w : nat) x,
       1 ≤ layer_idx → (1 ≤ w)%nat →
       well_formed x → last (shape x) = Some w →
       fst (Dropout.forward x true
              (snd (Dropout.compile layer_idx (Z.of_nat w) d))) =
       inr (NDArray (shape x)
              (zip_with (fun (keep : bool) v =>
                           f_div (if keep then v else f_zero)
                             (f_sub f_one rate))
                 (map (fun k => f_ltb rate (entropy k))
                    (seq 0 (length (data x))))
                 (data x)))).
Proof.
  unfold Dropout.init. simpl. split; intros Hrate; rewrite Hrate; [done|].
  simpl. eexists. split; [done|]. repeat split.
  intros layer_idx w x Hi Hw Hwf Hl.
  rewrite compile_run by lia. simpl.
  rewrite (forward_training_run _ x w); [|done..].
  simpl. unfold kept, draws, rescale. simpl. by rewrite map_map.
Qed.

End DropoutBehaviour.

(** ** The model: what it keeps while it runs *)

Section ModelStructure.
Context {F : Type} `{Scalar F}.
Implicit Types (P : Model.event F → Prop) (s m : Model.t F)
  (C : list (Model.LayerClass F)) (L : Model.Loss F).

Lemma maintains_pure {A} C L P (c : M (Model.t F) A) :
  (∀ s, snd (c s) = s) → maintains C L P c.
Proof.
  intros Hc s HC HL. exists []. rewrite Hc, app_nil_r. by repeat split.
Qed.

Lemma maintains_bind {A B} C L P (c : M (Model.t F) A)
    (k : A → M (Model.t F) B) :
  maintains C L P c → (∀ a, maintains C L P (k a)) →
  maintains C L P (bind c k).
Proof.
  intros Hc Hk s HC HL. destruct (Hc s HC HL) as (evs1 & E1 & F1 & C1 & L1).
  unfold bind. destruct (c s) as [[e|a] s1]; simpl in *.
  - by exists evs1.
  - destruct (Hk a s1 C1 L1) as (evs2 & E2 & F2 & C2 & L2).
    exists (evs1 ++ evs2). rewrite E2, E1, app_assoc.
    split; [done|]. split; [by apply Forall_app|done].
Qed.

Lemma maintains_for_each {A} C L P (xs : list A)
    (body : A → M (Model.t F) unit) :
  (∀ x, x ∈ xs → maintains C L P (body x)) →
  maintains C L P (for_each xs body).
Proof.
  induction xs as [|x xs IH]; intros Hb; simpl.
  - by apply maintains_pure.
  - apply maintains_bind; [apply Hb; by left|].
    intros _. apply IH. intros y Hy. apply Hb. by right.
Qed.

Lemma maintains_for_fold {A B} C L P (xs : list A) (acc : B)
    (body : A → B → M (Model.t F) B) :
  (∀ x b, maintains C L P (body x b)) →
  maintains C L P (for_fold xs acc body).
Proof.
  intros Hb. revert acc. induction xs as [|x xs IH]; intros acc; simpl.
  - by apply maintains_pure.
  - apply maintains_bind; [apply Hb|]. intros b. apply IH.
Qed.

Lemma maintains_log C L P e : P e → maintains C L P (Model.log e).
Proof.
  intros He s HC HL. exists [e]. split; [done|].
  split; [by constructor|done].
Qed.

Lemma maintains_on_layer {A} C L P (i : nat)
    (method : ∀ c : Model.LayerClass F, M (Model.state c) A) :
  maintains C L P (Model.on_layer i method).
Proof.
  intros s HC HL. exists []. rewrite app_nil_r.
  rewrite on_layer_classes. unfold Model.on_layer.
  destruct (Model._LAYERS s !! i) as [l|]; [|done].
  by destruct (method (Model.class l) (Model.attrs l)).
Qed.

Lemma maintains_layer_call {A} C L P (i : nat) e
    (method : ∀ c : Model.LayerClass F, M (Model.state c) A) :
  P e →
  maintains C L P (let* _ := Model.log e in Model.on_layer i method).
Proof.
  intros He. apply maintains_bind; [by apply maintains_log|].
  intros _. apply maintains_on_layer.
Qed.

Lemma maintains_loss_call {A} C L P e (r : Model.t F → result A) :
  P e →
  maintains C L P
    (let* _ := Model.log e in let* self := get in lift (r self)).
Proof.
  intros He. apply maintains_bind; [by apply maintains_log|].
  intros _. apply maintains_bind; [by apply maintains_pure|].
  intros self. by apply maintains_pure.
Qed.

Lemma maintains_predict C L P examples :
  (∀ i x, P (Model.CallForward i x None)) →
  maintains C L P (Model.predict examples).
Proof.
  intros HP. apply maintains_bind; [by apply maintains_pure|]. intros self.
  apply maintains_for_fold. intros i x. by apply maintains_layer_call.
Qed.

(** The answer of layer [i] to [IS_TRAINABLE], read in a model whose
    classes are [C]. *)
Lemma layer_IS_TRAINABLE_answer C i s (b : bool) s' :
  classes s = C →
  Model.layer_IS_TRAINABLE i s = (inr b, s') →
  ∃ c a, C !! i = Some c ∧ Model.get_IS_TRAINABLE c a = inr b.
Proof.
  intros HC. unfold Model.layer_IS_TRAINABLE, Model.on_layer.
  destruct (Model._LAYERS s !! i) as [l|] eqn:Hl; [|done].
  intros [= Hb _]. exists (Model.class l), (Model.attrs l).
  split; [|done]. subst C. unfold classes.
  by rewrite list_lookup_fmap, Hl.
Qed.

Lemma maintains_update_step C L P (learning_rate : F) i :
  (∀ c a, C !! i = Some c → Model.get_IS_TRAINABLE c a = inr true →
          P (Model.CallUpdate i learning_rate)) →
  maintains C L P
    (let* is_trainable := Model.layer_IS_TRAINABLE i in
     if is_trainable then Model.layer_update i learning_rate else ret tt).
Proof.
  intros HP s HC HL. unfold bind.
  destruct (maintains_on_layer C L P i
              (fun c a => (Model.get_IS_TRAINABLE c a, a)) s HC HL)
    as (evs1 & E1 & F1 & C1 & L1).
  change (Model.on_layer i _) with (@Model.layer_IS_TRAINABLE F i) in *.
  destruct (Model.layer_IS_TRAINABLE i s) as [[e|b] s1] eqn:Hq; simpl in *.
  - by exists evs1.
  - destruct b.
    + destruct (layer_IS_TRAINABLE_answer C i s true s1 HC Hq)
        as (c & a & Hc & Ha).
      destruct (maintains_layer_call C L P i
                  (Model.CallUpdate i learning_rate)
                  (fun c => Model.call_update c learning_rate)
                  (HP c a Hc Ha) s1 C1 L1) as (evs2 & E2 & F2 & C2 & L2).
      exists (evs1 ++ evs2).
      change (bind (Model.log _) _) with
        (@Model.layer_update F i learning_rate) in *.
      rewrite E2, E1, app_assoc.
      split; [done|]. split; [by apply Forall_app|done].
    + by exists evs1.
Qed.

Lemma maintains_fit C L P uninitialised examples labels batch_size epochs
    (learning_rate : F) permutation :
  (∀ i x, P (Model.CallForward i x None)) →
  (∀ o l, P (Model.CallGradate o l)) →
  (∀ i x, P (Model.CallBackward i x)) →
  (∀ i c a, C !! i = Some c → Model.get_IS_TRAINABLE c a = inr true →
            P (Model.CallUpdate i learning_rate)) →
  (∀ o l, P (Model.CallCalculate o l)) →
  maintains C L P
    (Model.fit uninitialised examples labels batch_size epochs
       learning_rate permutation).
Proof.
  intros Hf Hg Hb Hu Hc. unfold Model.fit.
  destruct (batch_size <? 1); [by apply maintains_pure|].
  destruct (epochs <? 1); [by apply maintains_pure|].
  apply maintains_bind; [by apply maintains_pure|]. intros n_examples.
  apply maintains_for_fold. intros epoch training_history.
  unfold Model.fit_epoch.
  apply maintains_bind.
  { unfold Model.fit_batches.
    apply maintains_bind; [by apply maintains_pure|]. intros pe.
    apply maintains_bind; [by apply maintains_pure|]. intros pl.
    apply maintains_bind; [by apply maintains_pure|]. intros n_batches.
    apply maintains_for_each. intros batch _. unfold Model.fit_batch.
    apply maintains_bind; [by apply maintains_pure|]. intros be.
    apply maintains_bind; [by apply maintains_pure|]. intros bl.
    apply maintains_bind; [by apply maintains_predict|]. intros outputs.
    apply maintains_bind; [by apply maintains_loss_call|]. intros grads.
    apply maintains_bind; [by apply maintains_pure|]. intros self.
    apply maintains_bind.
    - apply maintains_for_fold. intros i x. by apply maintains_layer_call.
    - intros _. apply maintains_for_each. intros i _.
      apply maintains_update_step. intros c a. apply Hu. }
  intros _.
  apply maintains_bind; [by apply maintains_predict|]. intros outputs.
  apply maintains_bind; [by apply maintains_loss_call|]. intros loss.
  by apply maintains_pure.
Qed.

(** Neither [predict] nor [fit] changes the number of layers, the class
    of any layer or the loss of the model, and both only add to the
    history of calls, whether they return or raise. *)
Theorem predict_and_fit_keep_the_model_structure uninitialised
    examples labels batch_size epochs (learning_rate : F) permutation m :
  let after_predict := snd (Model.predict examples m) in
  let after_fit :=
    snd (Model.fit uninitialised examples labels batch_size epochs
           learning_rate permutation m) in
  (classes after_predict = classes m ∧
   Model._LOSS after_predict = Model._LOSS m ∧
   length (Model._LAYERS after_predict) = length (Model._LAYERS m) ∧
   Model.calls m `prefix_of` Model.calls after_predict) ∧
  (classes after_fit = classes m ∧
   Model._LOSS after_fit = Model._LOSS m ∧
   length (Model._LAYERS after_fit) = length (Model._LAYERS m) ∧
   Model.calls m `prefix_of` Model.calls after_fit).
Proof.
  assert (∀ s s', classes s' = classes s →
            length (Model._LAYERS s') = length (Model._LAYERS s)) as Hlen.
  { intros s s' Hs. apply (f_equal length) in Hs.
    unfold classes in Hs. by rewrite !length_map in Hs. }
  split.
  - destruct (maintains_predict (classes m) (Model._LOSS m)
                (fun _ => True) examples (fun _ _ => I) m eq_refl eq_refl)
      as (evs & E & _ & HC & HL).
    repeat split; [done|done|by apply Hlen|]. rewrite E. by eexists.
  - destruct (maintains_fit (classes m) (Model._LOSS m) (fun _ => True)
                uninitialised examples labels batch_size epochs
                learning_rate permutation) with (s := m)
      as (evs & E & _ & HC & HL); try done.
    repeat split; [done|done|by apply Hlen|]. rewrite E. by eexists.
Qed.

(** [fit] never calls [update] on a layer whose class never answers
    true to [IS_TRAINABLE]; a dropout layer, which has no [update] of its
    own, is such a layer when [IS_TRAINABLE] is false. *)
Theorem fit_never_updates_untrainable_layers uninitialised examples
    labels batch_size epochs (learning_rate : F) permutation m
    (i : nat) (c : Model.LayerClass F) :
  classes m !! i = Some c →
  (∀ a, Model.get_IS_TRAINABLE c a ≠ inr true) →
  ∃ evs,
    Model.calls
      (snd (Model.fit uninitialised examples labels batch_size epochs
              learning_rate permutation m)) = Model.calls m ++ evs ∧
    Forall (fun e => tag_of e ≠ TagUpdate i) evs.
Proof.
  intros Hc Hnever.
  destruct (maintains_fit (classes m) (Model._LOSS m)
              (fun e => tag_of e ≠ TagUpdate i)
              uninitialised examples labels batch_size epochs
              learning_rate permutation) with (s := m)
    as (evs & E & Hevs & _); try done.
  - intros j c' a Hj Ha. simpl. intros [= ->].
    rewrite Hc in Hj. injection Hj as <-. by apply (Hnever a).
  - by exists evs.
Qed.

End ModelStructure.

(** ** The model: construction, prediction and argument checks *)

Section ModelBehaviour.
Context {F : Type} `{Scalar F}.
Implicit Types (s m : Model.t F).

Lemma on_layer_calls {A} (i : nat)
    (method : ∀ c : Model.LayerClass F, M (Model.state c) A) s :
  Model.calls (snd (Model.on_layer i method s)) = Model.calls s.
Proof.
  unfold Model.on_layer.
  destruct (Model._LAYERS s !! i) as [l|]; [|done].
  by destruct (method (Model.class l) (Model.attrs l)).
Qed.

(** A call of a layer method is recorded once, whether it returns or
    raises. *)
Lemma layer_call_calls {A} (i : nat) e
    (method : ∀ c : Model.LayerClass F, M (Model.state c) A) s :
  Model.calls
    (snd ((let* _ := Model.log e in Model.on_layer i method) s)) =
  Model.calls s ++ [e].
Proof.
  unfold bind, Model.log, modify.
  match goal with
  | |- Model.calls (snd (Model.on_layer i method ?s1)) = _ =>
      by rewrite (on_layer_calls i method s1)
  end.
Qed.

(** The first loop of the constructor accepts a list of layers exactly
    when every element passes [verify_layer] and the input layers are
    the first element and no other; the empty list is accepted.  When it
    refuses, the constructor raises [TypeError] or [ValueError] before
    it calls any layer. *)
Theorem init_validates_the_layer_list verify_layer (loss : Model.Loss F)
    (model_layers : list (Model.Layer F)) :
  (Model.check_layers verify_layer 0 model_layers = inr tt ↔
     Forall (fun layer => verify_layer layer = true) model_layers ∧
     ∀ i layer, model_layers !! i = Some layer →
       Model.isinstance_InputLayer (Model.class layer) = (i =? 0)%nat) ∧
  (∀ e, Model.check_layers verify_layer 0 model_layers = inl e →
     (e = TypeError ∨ e = ValueError) ∧
     Model.init verify_layer loss model_layers =
       (inl e, unbuilt loss model_layers)).
Proof.
  split.
  - assert (∀ (ls : list (Model.Layer F)) k,
      Model.check_layers verify_layer k ls = inr tt ↔
      Forall (fun layer => verify_layer layer = true) ls ∧
      ∀ i layer, ls !! i = Some layer →
        Model.isinstance_InputLayer (Model.class layer) = (k + i =? 0)%nat)
      as Hgen.
    { induction ls as [|l ls IH]; intros k; simpl.
      - split; [|done]. intros _. split; [constructor|]. by intros i l.
      - destruct (verify_layer l) eqn:Hv; simpl.
        2:{ split; [done|]. intros [Hall _].
            apply Forall_cons in Hall as [Hl _]. congruence. }
        destruct (Model.isinstance_InputLayer (Model.class l)) eqn:Hin;
          destruct (Nat.eqb_spec k 0) as [->|Hk]; simpl.
        + rewrite IH. split.
          * intros [Hall Hidx]. split; [by constructor|].
            intros [|i] layer Hi; simpl in Hi.
            -- by injection Hi as <-.
            -- rewrite (Hidx i layer Hi). done.
          * intros [Hall Hidx]. apply Forall_cons in Hall as [_ Hall].
            split; [done|]. intros i layer Hi.
            by rewrite (Hidx (S i) layer Hi).
        + split; [done|]. intros [_ Hidx].
          specialize (Hidx 0%nat l eq_refl). rewrite Hin in Hidx.
          symmetry in Hidx. apply Nat.eqb_eq in Hidx. lia.
        + split; [done|]. intros [_ Hidx].
          specialize (Hidx 0%nat l eq_refl). by rewrite Hin in Hidx.
        + rewrite IH. split.
          * intros [Hall Hidx]. split; [by constructor|].
            intros [|i] layer Hi; simpl in Hi.
            -- injection Hi as <-. rewrite Hin. symmetry.
               apply Nat.eqb_neq. lia.
            -- rewrite (Hidx i layer Hi).
               by replace (S k + i)%nat with (k + S i)%nat by lia.
          * intros [Hall Hidx]. apply Forall_cons in Hall as [_ Hall].
            split; [done|]. intros i layer Hi.
            rewrite (Hidx (S i) layer Hi).
            by replace (S k + i)%nat with (k + S i)%nat by lia. }
    by rewrite (Hgen model_layers 0%nat).
  - intros e He. split.
    + revert He. generalize 0%nat as k.
      induction model_layers as [|l ls IH]; intros k; simpl; [done|].
      destruct (verify_layer l); simpl; [|intros [= <-]; by left].
      destruct (_ && _); [intros [= <-]; by right|].
      destruct (_ && _); [intros [= <-]; by right|].
      apply IH.
    + unfold Model.init, bind, lift. by rewrite He.
Qed.

Lemma filter_nonzero_seq (n : nat) :
  filter (fun i => i ≠ 0%nat) (seq 0 n) = seq 1 (n - 1).
Proof.
  assert (∀ k a, (1 ≤ a)%nat →
            filter (fun i => i ≠ 0%nat) (seq a k) = seq a k) as Hk.
  { induction k as [|k IH]; intros a Ha; [done|].
    cbn [seq]. rewrite filter_cons_True by lia. by rewrite IH by lia. }
  destruct n as [|n]; [done|].
  cbn [seq]. rewrite filter_cons_False by (intros Hne; by apply Hne).
  rewrite Hk by lia. f_equal. lia.
Qed.

Lemma connect_loop_calls (idxs : list nat) s s' :
  for_each idxs (fun layer_idx =>
    if (layer_idx =? 0)%nat then ret tt
    else let* width := Model.layer_UNITS (layer_idx - 1) in
         Model.layer_compile layer_idx width) s = (inr tt, s') →
  ∃ widths,
    length widths = length (filter (fun i => i ≠ 0%nat) idxs) ∧
    Model.calls s' = Model.calls s ++
      zip_with (fun i width => Model.CallCompile i [width])
        (filter (fun i => i ≠ 0%nat) idxs) widths.
Proof.
  revert s. induction idxs as [|i idxs IH]; intros s Hrun.
  - injection Hrun as <-. exists []. by rewrite app_nil_r.
  - simpl in Hrun. apply bind_returns in Hrun as ([] & s1 & Hstep & Hrun).
    apply IH in Hrun as (widths & Hlen & Hcalls).
    destruct (Nat.eqb_spec i 0) as [->|Hi].
    + injection Hstep as <-.
      rewrite filter_cons_False by (intros Hne; by apply Hne).
      by exists widths.
    + rewrite filter_cons_True by done.
      apply bind_returns in Hstep as (width & s0 & Hu & Hc).
      exists (width :: widths). split; [simpl; lia|].
      rewrite Hcalls.
      replace s1 with (snd (Model.layer_compile i width s0))
        by (by rewrite Hc).
      unfold Model.layer_compile. rewrite layer_call_calls.
      replace s0 with (snd (Model.layer_UNITS (i - 1) s))
        by (by rewrite Hu).
      unfold Model.layer_UNITS. rewrite on_layer_calls.
      by rewrite <- app_assoc.
Qed.

(** A constructor that returns has called [compile] exactly once on
    every layer but the first, in the order of the layers, each time
    with one argument; it has made no other call, and the number and the
    classes of the layers are those of its arguments. *)
Theorem init_compiles_every_later_layer_once verify_layer
    (loss : Model.Loss F) (model_layers : list (Model.Layer F)) m :
  Model.init verify_layer loss model_layers = (inr tt, m) →
  classes m = map Model.class model_layers ∧
  ∃ widths,
    length widths = (length model_layers - 1)%nat ∧
    Model.calls m =
      zip_with (fun i width => Model.CallCompile i [width])
        (seq 1 (length model_layers - 1)) widths.
Proof.
  unfold Model.init. intros Hrun.
  apply bind_returns in Hrun as ([] & s0 & Hcheck & Hrun).
  apply lift_returns in Hcheck as [_ ->].
  split.
  - assert (maintains (classes (unbuilt loss model_layers)) loss
              (fun _ => True)
              (Model.connect_layers (F := F) (length model_layers))) as Hm.
    { apply maintains_for_each. intros i _.
      destruct (i =? 0)%nat; [by apply maintains_pure|].
      apply maintains_bind; [apply maintains_on_layer|]. intros width.
      by apply maintains_layer_call. }
    destruct (Hm (unbuilt loss model_layers) eq_refl eq_refl)
      as (_ & _ & _ & HC & _).
    unfold unbuilt in HC. rewrite Hrun in HC. done.
  - apply connect_loop_calls in Hrun as (widths & Hlen & Hcalls).
    rewrite filter_nonzero_seq in Hlen, Hcalls.
    rewrite length_seq in Hlen. by exists widths.
Qed.

Lemma forward_loop_calls (count first : nat) (x : ndarray F) s :
  ∃ k evs,
    Model.calls
      (snd (for_fold (seq first count) x
              (fun layer inputs => Model.layer_forward layer inputs) s)) =
      Model.calls s ++ evs ∧
    map tag_of evs = map TagForward (seq first k) ∧
    (k ≤ count)%nat ∧
    head evs = (if count is O then None
                else Some (Model.CallForward first x None)) ∧
    match fst (for_fold (seq first count) x
                 (fun layer inputs => Model.layer_forward layer inputs) s)
    with
    | inr _ => k = count
    | inl _ => (1 ≤ k)%nat
    end.
Proof.
  revert first x s. induction count as [|count IH]; intros first x s.
  - exists 0%nat, []. simpl. by rewrite app_nil_r.
  - simpl. unfold bind at 1 2.
    pose proof (layer_call_calls first (Model.CallForward first x None)
                  (fun c => Model.call_forward c x None) s) as Hcall.
    change (bind (Model.log _) _) with (@Model.layer_forward F first x)
      in Hcall.
    destruct (Model.layer_forward first x s) as [[e|y] s1]; simpl in *.
    + exists 1%nat, [Model.CallForward first x None].
      repeat split; [done|lia|lia].
    + destruct (IH (S first) y s1) as (k & evs & E & T & Hk & _ & Hres).
      exists (S k), (Model.CallForward first x None :: evs).
      rewrite E, Hcall, <- app_assoc. simpl. rewrite T.
      repeat split; [lia|].
      destruct (fst _); lia.
Qed.

(** [predict] calls [forward], and nothing else, on the layers in their
    order, starting with the examples on layer 0.  When it returns it has
    called every layer once; when it raises, the exception comes from
    the last layer it called and the layers after it are not called. *)
Theorem predict_calls_layers_in_order examples m :
  let n := length (Model._LAYERS m) in
  ∃ k evs,
    Model.calls (snd (Model.predict examples m)) = Model.calls m ++ evs ∧
    map tag_of evs = map TagForward (seq 0 k) ∧
    (k ≤ n)%nat ∧
    head evs = (if n is O then None
                else Some (Model.CallForward 0 examples None)) ∧
    match fst (Model.predict examples m) with
    | inr _ => k = n
    | inl _ => (1 ≤ k)%nat
    end.
Proof.
  intros n. unfold Model.predict, bind, get.
  apply forward_loop_calls.
Qed.

(** [fit] checks its arguments before it does anything: a batch size or
    a number of epochs below one raises [ValueError], and examples
    without a first dimension raise [IndexError]; in both cases no layer
    is called and the model is left as it was. *)
Theorem fit_rejects_bad_arguments uninitialised examples labels
    (batch_size epochs : Z) (learning_rate : F) permutation m :
  (batch_size < 1 ∨ epochs < 1 →
   Model.fit uninitialised examples labels batch_size epochs learning_rate
     permutation m = (inl ValueError, m)) ∧
  (1 ≤ batch_size → 1 ≤ epochs → shape examples = [] →
   Model.fit uninitialised examples labels batch_size epochs learning_rate
     permutation m = (inl IndexError, m)).
Proof.
  unfold Model.fit. split.
  - intros Hbad.
    destruct (Z.ltb_spec batch_size 1); [done|].
    by destruct (Z.ltb_spec epochs 1); [|lia].
  - intros Hb He Hs.
    destruct (Z.ltb_spec batch_size 1); [lia|].
    destruct (Z.ltb_spec epochs 1); [lia|].
    by rewrite Hs.
Qed.

End ModelBehaviour.

(** ** Training: data that does not fit, and the steps of a batch *)

Section TrainingBehaviour.
Context {F : Type} `{Scalar F}.
Implicit Types (s m : Model.t F) (a : ndarray F).

Lemma shape_index_first (n : nat) (rest : list nat) :
  shape_index (n :: rest) 0 = inr n.
Proof.
  unfold shape_index. simpl.
  by destruct (Z.leb_spec (Z.of_nat (S (length rest))) 0); [lia|].
Qed.

Lemma take_rows_in_range {A} (a : ndarray A) (indices : list nat) n rest :
  shape a = n :: rest →
  Forall (fun i => (i < n)%nat) indices →
  take_rows a indices =
    inr (NDArray (length indices :: rest) (concat (map (row a) indices))).
Proof.
  intros Hs Hall. unfold take_rows. rewrite Hs.
  replace (forallb _ indices) with true; [done|].
  symmetry. apply forallb_forall. intros i Hi.
  apply list_elem_of_In in Hi. rewrite Forall_forall in Hall.
  apply Nat.ltb_lt. by apply Hall.
Qed.

Lemma take_rows_out_of_range {A} (a : ndarray A) (indices : list nat)
    k rest i :
  shape a = k :: rest → i ∈ indices → (k ≤ i)%nat →
  take_rows a indices = inl IndexError.
Proof.
  intros Hs Hi Hk. unfold take_rows. rewrite Hs.
  destruct (forallb _ indices) eqn:Hall; [|done].
  rewrite forallb_forall in Hall.
  apply list_elem_of_In in Hi. apply Hall in Hi.
  apply Nat.ltb_lt in Hi. lia.
Qed.

Lemma first_epoch uninitialised examples labels (batch_size epochs : Z)
    (learning_rate : F) permutation m n rest :
  1 ≤ batch_size → 1 ≤ epochs → shape examples = n :: rest →
  ∃ later history,
    Model.fit uninitialised examples labels batch_size epochs learning_rate
      permutation m =
    (let* history1 :=
       Model.fit_epoch examples labels n
         (Model.effective_batch_size n batch_size) learning_rate
         permutation 0 history in
     for_fold later history1
       (Model.fit_epoch examples labels n
          (Model.effective_batch_size n batch_size) learning_rate
          permutation)) m.
Proof.
  intros Hb He Hs. unfold Model.fit.
  destruct (Z.ltb_spec batch_size 1); [lia|].
  destruct (Z.ltb_spec epochs 1); [lia|].
  rewrite Hs, shape_index_first. unfold range.
  destruct (Z.to_nat epochs) as [|p] eqn:Hp; [lia|].
  by eexists _, _.
Qed.

(** Labels with fewer rows than the examples make the first epoch raise
    [IndexError] when it shuffles them, before any layer is called; the
    model is left as it was. *)
Theorem fit_refuses_fewer_labels_than_examples uninitialised examples
    labels (batch_size epochs : Z) (learning_rate : F) permutation m
    (n k : nat) rest rest' :
  1 ≤ batch_size → 1 ≤ epochs →
  shape examples = n :: rest → shape labels = k :: rest' →
  (k < n)%nat →
  permutation 0%nat ≡ₚ seq 0 n →
  Model.fit uninitialised examples labels batch_size epochs learning_rate
    permutation m = (inl IndexError, m).
Proof.
  intros Hb He Hsx Hsl Hk Hperm.
  destruct (first_epoch uninitialised examples labels batch_size epochs
              learning_rate permutation m n rest Hb He Hsx)
    as (later & history & ->).
  unfold Model.fit_epoch, Model.fit_batches. run_method.
  rewrite (take_rows_in_range examples _ n rest Hsx).
  - rewrite (take_rows_out_of_range labels _ k rest' (n - 1) Hsl); [done| |lia].
    rewrite Hperm. apply elem_of_seq. lia.
  - apply Forall_forall. intros i Hi. rewrite Hperm in Hi.
    apply elem_of_seq in Hi. lia.
Qed.

(** On a data set without examples [fit] raises [ZeroDivisionError] in
    the first epoch, whatever the model, the batch size and the number
    of epochs; no layer is called. *)
Theorem fit_on_empty_data_set_divides_by_zero uninitialised examples
    labels (batch_size epochs : Z) (learning_rate : F) permutation m
    (k : nat) rest rest' :
  1 ≤ batch_size → 1 ≤ epochs →
  shape examples = 0%nat :: rest → shape labels = k :: rest' →
  permutation 0%nat = [] →
  Model.fit uninitialised examples labels batch_size epochs learning_rate
    permutation m = (inl ZeroDivisionError, m).
Proof.
  intros Hb He Hsx Hsl Hperm.
  destruct (first_epoch uninitialised examples labels batch_size epochs
              learning_rate permutation m 0 rest Hb He Hsx)
    as (later & history & ->).
  unfold Model.fit_epoch, Model.fit_batches. run_method. rewrite Hperm.
  rewrite (take_rows_in_range examples [] 0 rest Hsx) by constructor.
  rewrite (take_rows_in_range labels [] k rest' Hsl) by constructor.
  unfold Model.effective_batch_size, Model.floordiv.
  by destruct (Z.ltb_spec (Z.of_nat 0) (2 * batch_size)); [|lia].
Qed.

End TrainingBehaviour.

(** ** Training: the batches *)

Section Batches.
Context {F : Type} `{Scalar F}.
Implicit Types (s m : Model.t F) (a : ndarray F).








End Batches.

(** ** The further properties on concrete layers and data *)

Section FurtherRuns.
Import Fixtures.

Lemma compile_binds_and_overrides_witness :
  (1 ≤ 1 ∧ 1 ≤ 3 ∧ 1 ≤ 2 ∧ 1 ≤ 5) ∧
  Dropout.units (snd (Dropout.compile 1 3 fresh_dropout)) = Some 3 ∧
  Dropout.compile 2 5 (snd (Dropout.compile 1 3 fresh_dropout)) =
    Dropout.compile 2 5 fresh_dropout.
Proof.
  assert (1 ≤ 1) as H1 by lia. assert (1 ≤ 3) as H3 by lia.
  assert (1 ≤ 2) as H2 by lia. assert (1 ≤ 5) as H5 by lia.
  split; [done|].
  destruct (compile_binds_and_overrides fresh_dropout 1 3 2 5 H1 H3 H2 H5)
    as (_ & Hu & _ & _ & _ & _ & _ & _ & Hagain).
  by split.
Defined.

Lemma compile_then_forward_witness :
  (1 ≤ 1 ∧ (1 ≤ 3)%nat ∧ last (shape ones_2x3) = Some 3%nat) ∧
  Dropout.forward ones_2x3 false
    (snd (Dropout.compile 1 (Z.of_nat 3) fresh_dropout)) =
    (inr ones_2x3, snd (Dropout.compile 1 (Z.of_nat 3) fresh_dropout)).
Proof.
  assert (1 ≤ 1) as H1 by lia. assert (1 ≤ 3)%nat as H3 by lia.
  split; [done|].
  exact (compile_then_forward fresh_dropout 1 3 3 ones_2x3 H1 H3 eq_refl).
Defined.

Lemma backward_without_filter_returns_zeros_witness :
  (Dropout._is_compiled compiled_dropout = true ∧
   Dropout._dropout_filter compiled_dropout = None ∧
   Dropout.units compiled_dropout = Some 3 ∧
   shape ones_2x3 = [2; 3]%nat) ∧
  Dropout.backward ones_2x3 compiled_dropout =
    (inr (NDArray [2; 3]%nat (replicate 6 0%float)), compiled_dropout).
Proof.
  split; [done|].
  exact (backward_without_filter_returns_zeros compiled_dropout ones_2x3
           2 3 eq_refl eq_refl eq_refl eq_refl).
Defined.

Lemma backward_needs_two_dimensions_witness :
  (Dropout._is_compiled compiled_dropout = true ∧
   (length (shape ones_3) < 2)%nat) ∧
  Dropout.backward ones_3 compiled_dropout =
    (inl IndexError, compiled_dropout).
Proof.
  assert (length (shape ones_3) < 2)%nat as Hlen by (simpl; lia).
  split; [done|].
  exact (backward_needs_two_dimensions compiled_dropout ones_3 eq_refl Hlen).
Defined.

Lemma backward_checks_second_dimension_only_witness :
  (Dropout._is_compiled compiled_dropout = true ∧
   shape ones_2x2x3 = [2; 2; 3]%nat ∧
   Dropout.units compiled_dropout ≠ Some (Z.of_nat 2)) ∧
  Dropout.backward ones_2x2x3 compiled_dropout =
    (inl ValueError, compiled_dropout).
Proof.
  assert (Dropout.units compiled_dropout ≠ Some (Z.of_nat 2)) as Hu
    by (by vm_compute).
  split; [done|].
  exact (backward_checks_second_dimension_only compiled_dropout ones_2x2x3
           2 2 [3%nat] eq_refl eq_refl Hu).
Defined.

Lemma successive_training_passes_use_fresh_draws_witness :
  (Dropout._is_compiled compiled_dropout = true ∧
   Dropout.units compiled_dropout = Some 3 ∧
   well_formed ones_2x3 ∧ well_formed ones_1x3) ∧
  Dropout._dropout_filter
    (snd (Dropout.forward ones_1x3 true
            (snd (Dropout.forward ones_2x3 true compiled_dropout)))) =
    Some (NDArray [1; 3]%nat [true; false; true]).
Proof.
  split; [done|].
  exact (proj1 (successive_training_passes_use_fresh_draws
                  compiled_dropout ones_2x3 ones_1x3 3
                  eq_refl eq_refl eq_refl eq_refl eq_refl eq_refl)).
Defined.

Lemma fit_never_updates_untrainable_layers_witness :
  classes scale_model !! 0%nat = Some Input_class ∧
  ∃ evs,
    Model.calls
      (snd (Model.fit (fun _ => 0%float) four_examples four_labels 2 1
              0.5%float (rotation 4) scale_model)) =
      Model.calls scale_model ++ evs ∧
    Forall (fun e => tag_of e ≠ TagUpdate 0) evs.
Proof.
  split; [done|].
  apply (fit_never_updates_untrainable_layers (fun _ => 0%float)
           four_examples four_labels 2 1 0.5%float (rotation 4)
           scale_model 0 Input_class eq_refl).
  by intros a.
Defined.

Lemma init_compiles_every_later_layer_once_witness :
  Model.init (fun _ => true) difference_loss
    [Input_layer 3; Scale_layer 2] = (inr tt, scale_model) ∧
  ∃ widths,
    length widths = 1%nat ∧
    Model.calls scale_model =
      zip_with (fun i width => Model.CallCompile i [width]) [1%nat] widths.
Proof.
  assert (Model.init (fun _ => true) difference_loss
            [Input_layer 3; Scale_layer 2] = (inr tt, scale_model)) as Hrun
    by done.
  split; [exact Hrun|].
  exact (proj2 (init_compiles_every_later_layer_once _ _ _ _ Hrun)).
Defined.

Lemma fit_rejects_bad_arguments_witness :
  (0 < 1 ∨ 1 < 1) ∧
  Model.fit (fun _ => 0%float) four_examples four_labels 0 1 0.5%float
    (rotation 4) scale_model = (inl ValueError, scale_model).
Proof.
  assert (0 < 1 ∨ 1 < 1) as Hbad by (left; lia).
  split; [exact Hbad|].
  exact (proj1 (fit_rejects_bad_arguments (fun _ => 0%float) four_examples
                  four_labels 0 1 0.5%float (rotation 4) scale_model) Hbad).
Defined.

Lemma fit_refuses_fewer_labels_than_examples_witness :
  (1 ≤ 1 ∧ 1 ≤ 1 ∧ (2 < 4)%nat ∧ rotation 4 0 ≡ₚ seq 0 4) ∧
  Model.fit (fun _ => 0%float) four_examples ones_2x3 1 1 0.5%float
    (rotation 4) scale_model = (inl IndexError, scale_model).
Proof.
  assert (1 ≤ 1) as H1 by lia. assert (2 < 4)%nat as H2 by lia.
  assert (rotation 4 0 ≡ₚ seq 0 4) as Hperm by done.
  split; [done|].
  exact (fit_refuses_fewer_labels_than_examples (fun _ => 0%float)
           four_examples ones_2x3 1 1 0.5%float (rotation 4) scale_model
           4 2 [3%nat] [3%nat] H1 H1 eq_refl eq_refl H2 Hperm).
Defined.

Lemma fit_on_empty_data_set_divides_by_zero_witness :
  (1 ≤ 2 ∧ 1 ≤ 3 ∧ rotation 0 0 = []) ∧
  Model.fit (fun _ => 0%float) no_examples no_examples 2 3 0.5%float
    (rotation 0) scale_model = (inl ZeroDivisionError, scale_model).
Proof.
  assert (1 ≤ 2) as H2 by lia. assert (1 ≤ 3) as H3 by lia.
  split; [done|].
  exact (fit_on_empty_data_set_divides_by_zero (fun _ => 0%float)
           no_examples no_examples 2 3 0.5%float (rotation 0) scale_model
           0 [3%nat] [3%nat] H2 H3 eq_refl eq_refl eq_refl).
Defined.



Lemma init_checks_rate_and_starts_clean_witness :
  (f_ltb f_zero 0.5%float && f_ltb 0.5%float f_one = true ∧
   f_ltb f_zero 1%float && f_ltb 1%float f_one = false) ∧
  Dropout.init 1%float alternating = inl ValueError ∧
  ∃ d, Dropout.init 0.5%float alternating = inr d ∧
       Dropout._dropout_filter d = None.
Proof.
  split; [done|].
  destruct (init_checks_rate_and_starts_clean 0.5%float alternating)
    as [_ Hok].
  destruct (init_checks_rate_and_starts_clean 1%float alternating)
    as [Hbad _].
  split; [exact (Hbad eq_refl)|].
  destruct (Hok eq_refl) as (d & Hd & _ & _ & Hf & _).
  exists d. by split.
Defined.

End FurtherRuns.
